(** * cm2py: Circuit Maker 2 save strings

    A shallow embedding of [src/cm2py/cm2py.py] (classes [Block] and [Save],
    [validateSave], [importSave]) and the properties of its specification.

    Python objects that the module mutates in place are modelled with
    explicit state: a [Save] is threaded through its methods, and the list
    objects that hold block properties live in a store addressed by
    position, so that two blocks holding the same list object are
    distinguishable from two blocks holding equal lists.  A [Block] is
    modelled by the value of its fields, and [move] returns the block as it
    is afterwards.  Exceptions are values of [exn]; a raised exception
    leaves the state as the code left it.

    What belongs to the interpreter and not to the module (the rendering
    and the reading of floats, the matching engine of [re], the values that
    [uuid4] draws, and two differences between CPython versions) is a
    parameter of the development. *)

From Stdlib Require Import List String Ascii ZArith NArith Lia Bool.
From Stdlib Require Import DecimalString SpecFloat.
Import ListNotations.

Set Default Goal Selector "!".

Local Open Scope list_scope.
Local Open Scope string_scope.

(** ** The Python fragment the module relies on *)

Module Py.

(** Exceptions of the interpreter that the module can raise.  [Dangling]
    is not a Python exception: it marks a store address that was never
    allocated, which no Python program can hold. *)
Inductive exn : Type :=
| AssertionError (msg : string)
| AttributeError (msg : string)
| IndexError (msg : string)
| KeyError
| OverflowError (msg : string)
| RuntimeError (msg : string)
| ValueError (msg : string)
| re_error (msg : string) (pos : nat)
| Dangling.

Inductive result (A : Type) : Type :=
| Ok (a : A)
| Raise (e : exn).
Arguments Ok {A} a.
Arguments Raise {A} e.

Definition is_ok {A} (r : result A) : bool :=
  match r with Ok _ => true | Raise _ => false end.

Definition rbind {A B} (r : result A) (k : A -> result B) : result B :=
  match r with Ok a => k a | Raise e => Raise e end.

Definition of_option {A} (o : option A) (e : exn) : result A :=
  match o with Some a => Ok a | None => Raise e end.

(** State and exceptions: the state survives a raise. *)
Definition M (S A : Type) : Type := S -> result A * S.

Definition ret {S A} (a : A) : M S A := fun s => (Ok a, s).
Definition raise {S A} (e : exn) : M S A := fun s => (Raise e, s).
Definition bind {S A B} (m : M S A) (k : A -> M S B) : M S B :=
  fun s => match m s with
           | (Ok a, s') => k a s'
           | (Raise e, s') => (Raise e, s')
           end.
Definition get {S} : M S S := fun s => (Ok s, s).
Definition put {S} (s : S) : M S unit := fun _ => (Ok tt, s).
Definition lift {S A} (r : result A) : M S A := fun s => (r, s).

(** [assert c, msg] *)
Definition py_assert {S} (c : bool) (msg : string) : M S unit :=
  if c then ret tt else raise (AssertionError msg).

(** *** Numbers

    A coordinate or a property is a Python [int] or a Python [float]; a
    float is an IEEE 754 binary64 value in the canonical form of
    [spec_float]. *)
Inductive pynum : Type :=
| PyInt (z : Z)
| PyFloat (f : spec_float).

(** [float.is_integer()] *)
Definition float_is_integer (f : spec_float) : bool :=
  match f with
  | S754_zero _ => true
  | S754_finite _ m e =>
      if (0 <=? e)%Z then true else (Z.pos m mod 2 ^ (- e) =? 0)%Z
  | S754_infinity _ | S754_nan => false
  end.

(** [int(f)] for a float: truncation towards zero. *)
Definition float_trunc (f : spec_float) : result Z :=
  match f with
  | S754_zero _ => Ok 0%Z
  | S754_finite s m e =>
      let a := if (0 <=? e)%Z then (Z.pos m * 2 ^ e)%Z
               else (Z.pos m / 2 ^ (- e))%Z in
      Ok (if s then (- a)%Z else a)
  | S754_infinity _ =>
      Raise (OverflowError "cannot convert float infinity to integer")
  | S754_nan => Raise (ValueError "cannot convert float NaN to integer")
  end.

(** [int(x)] for a number. *)
Definition py_int (x : pynum) : result Z :=
  match x with
  | PyInt z => Ok z
  | PyFloat f => float_trunc f
  end.

(** The exact comparison of an [int] with a [float]. *)
Definition int_eq_float (z : Z) (f : spec_float) : bool :=
  match f with
  | S754_zero _ => (z =? 0)%Z
  | S754_finite s m e =>
      let v := if s then Z.neg m else Z.pos m in
      if (0 <=? e)%Z then (z =? v * 2 ^ e)%Z
      else (z * 2 ^ (- e) =? v)%Z
  | S754_infinity _ | S754_nan => false
  end.

(** [x == y] on numbers. *)
Definition py_eq (x y : pynum) : bool :=
  match x, y with
  | PyInt a, PyInt b => (a =? b)%Z
  | PyInt a, PyFloat g => int_eq_float a g
  | PyFloat f, PyInt b => int_eq_float b f
  | PyFloat f, PyFloat g => SFeqb f g
  end.

(** [str(z)] for an [int]. *)
Definition str_int (z : Z) : string := NilZero.string_of_int (Z.to_int z).

Definition str_nat (n : nat) : string := str_int (Z.of_nat n).

(** [str(b)] for a [bool]. *)
Definition str_bool (b : bool) : string := if b then "True" else "False".

(** *** Strings *)

(** [s.split(sep)] for a one-character separator. *)
Fixpoint split (sep : ascii) (s : string) : list string :=
  match s with
  | EmptyString => [EmptyString]
  | String c rest =>
      if Ascii.eqb c sep then EmptyString :: split sep rest
      else match split sep rest with
           | [] => [String c EmptyString]
           | h :: t => String c h :: t
           end
  end.

(** [sep.join(l)] *)
Definition join (sep : string) (l : list string) : string :=
  String.concat sep l.

(** The message of a failed sequence unpacking. *)
Definition unpack_error (expected got : nat) : exn :=
  if Nat.ltb got expected then
    ValueError ("not enough values to unpack (expected " ++ str_nat expected
                ++ ", got " ++ str_nat got ++ ")")
  else
    ValueError ("too many values to unpack (expected " ++ str_nat expected
                ++ ")").

(** *** Lists *)

(** [l[i]], negative indices counting from the end. *)
Definition py_index {A} (l : list A) (i : Z) : result A :=
  let n := Z.of_nat (List.length l) in
  let j := if (i <? 0)%Z then (i + n)%Z else i in
  if (j <? 0)%Z then Raise (IndexError "list index out of range")
  else of_option (nth_error l (Z.to_nat j))
                 (IndexError "list index out of range").

(** *** Dictionaries

    A [dict] keeps its entries in insertion order; assigning to a key that
    is present replaces the value where it stands. *)
Section Dict.
Context {K V : Type} (eqb : K -> K -> bool).

Definition dict : Type := list (K * V).

Fixpoint dict_get (k : K) (d : dict) : option V :=
  match d with
  | [] => None
  | (k', v) :: d' => if eqb k k' then Some v else dict_get k d'
  end.

(** [k in d] *)
Definition dict_in (k : K) (d : dict) : bool :=
  match dict_get k d with Some _ => true | None => false end.

(** [d[k] = v] *)
Fixpoint dict_set (k : K) (v : V) (d : dict) : dict :=
  match d with
  | [] => [(k, v)]
  | (k', v') :: d' =>
      if eqb k k' then (k', v) :: d' else (k', v') :: dict_set k v d'
  end.

(** [del d[k]]; [None] is [KeyError]. *)
Fixpoint dict_del (k : K) (d : dict) : option dict :=
  match d with
  | [] => None
  | (k', v') :: d' =>
      if eqb k k' then Some d'
      else match dict_del k d' with
           | Some d'' => Some ((k', v') :: d'')
           | None => None
           end
  end.

Definition dict_keys (d : dict) : list K := map fst d.
End Dict.
Arguments dict K V : clear implicits.

End Py.

Import Py.

Declare Scope py_scope.
Delimit Scope py_scope with py.
Notation "x <- m ;; k" := (bind m (fun x => k))
  (at level 61, m at next level, right associativity) : py_scope.
Notation "m ;; k" := (bind m (fun _ => k))
  (at level 61, right associativity) : py_scope.
Notation "x <~ r ;; k" := (rbind r (fun x => k))
  (at level 61, r at next level, right associativity) : py_scope.
Local Open Scope py_scope.

(** ** The interpreter

    What the module takes from the interpreter and its library and what
    differs between CPython versions.  The development is parametric in
    it. *)
Class Runtime : Type := {
  (** [re] accepts atomic groups [(?>...)]: CPython 3.11 and later. *)
  re_atomic_groups : bool;
  (** [int] has the method [is_integer]: CPython 3.12 and later. *)
  int_has_is_integer : bool;
  (** [str(f)] for a float [f] *)
  float_repr : spec_float -> string;
  (** [float(s)] for a string [s]; [None] is [ValueError]. *)
  float_of_str : string -> option spec_float;
  (** [int(s)] for a string [s]; [None] is [ValueError]. *)
  int_of_str : string -> option Z;
  (** The rest of [re.match pattern string], for a pattern that the scan
      [sre_scan] below does not reject: the match found, if any. *)
  sre_engine : string -> string -> result (option string);
}.

(** *** The pattern parser of [re]

    The branch of the parser of [re] (CPython, [Lib/re/_parser.py],
    [_parse]) that reads what follows an opening parenthesis.  It is what
    decides whether [re] accepts the group syntax of a pattern. *)
Inductive scan_state : Type :=
| Top                     (**r between two items *)
| Escape                  (**r after a backslash, outside a class *)
| ClassOpen               (**r after [[] *)
| ClassNeg                (**r after [[^] *)
| ClassBody               (**r inside a class *)
| ClassEscape             (**r after a backslash, inside a class *)
| Group (start : nat)     (**r after [(], which stands at [start] *)
| GroupExt (start : nat)  (**r after [(?] *)
| GroupLt (start : nat).  (**r after [(?<] *)

Definition one (c : ascii) : string := String c EmptyString.

Definition after_char (c : ascii) (pos : nat) : scan_state :=
  if Ascii.eqb c "\" then Escape
  else if Ascii.eqb c "[" then ClassOpen
  else if Ascii.eqb c "(" then Group pos
  else Top.

Definition is_one_of (c : ascii) (chars : string) : bool :=
  existsb (Ascii.eqb c) (list_ascii_of_string chars).

(** [sre_scan atomic st pos p] reads the pattern [p], whose first character
    stands at position [pos], from the state [st].  [Some e] is the error
    that the parser raises at the first group extension it does not know,
    with the position of the question mark of that group;
    [None] says that the scan met none, or met a construct that it leaves
    to [sre_engine] (named groups, comments, conditionals, flags). *)
Fixpoint sre_scan (atomic : bool) (st : scan_state) (pos : nat) (p : string)
  : option exn :=
  match p with
  | EmptyString => None
  | String c rest =>
      let continue st' := sre_scan atomic st' (S pos) rest in
      match st with
      | Top => continue (after_char c pos)
      | Escape => continue Top
      | ClassOpen =>
          if Ascii.eqb c "^" then continue ClassNeg
          else if Ascii.eqb c "\" then continue ClassEscape
          else continue ClassBody
      | ClassNeg =>
          if Ascii.eqb c "\" then continue ClassEscape
          else continue ClassBody
      | ClassBody =>
          if Ascii.eqb c "]" then continue Top
          else if Ascii.eqb c "\" then continue ClassEscape
          else continue ClassBody
      | ClassEscape => continue ClassBody
      | Group start =>
          if Ascii.eqb c "?" then continue (GroupExt start)
          else continue (after_char c pos)
      | GroupExt start =>
          if is_one_of c ":=!" then continue Top
          else if Ascii.eqb c "<" then continue (GroupLt start)
          else if Ascii.eqb c ">" then
            if atomic then continue Top
            else Some (re_error ("unknown extension ?" ++ one c) (S start))
          else if is_one_of c "P#(iLmsxatu-" then None
          else Some (re_error ("unknown extension ?" ++ one c) (S start))
      | GroupLt start =>
          if is_one_of c "=!" then continue Top
          else Some (re_error ("unknown extension ?<" ++ one c) (S start))
      end
  end.

(** [re.match(pattern, string)]: the pattern is compiled, then matched. *)
Definition re_match {rt : Runtime} (pattern text : string)
  : result (option string) :=
  match sre_scan re_atomic_groups Top 0 pattern with
  | Some e => Raise e
  | None => sre_engine pattern text
  end.

(** ** The store

    List objects are addressed by their position in [lists].  The values
    that [uuid4()] returns are an input: [uuid_values w n] is the value of
    the call number [n]. *)
Definition UUID : Type := N.
Definition addr : Type := nat.

Record World : Type := {
  lists : list (list pynum);
  uuid_values : nat -> UUID;
  uuid_drawn : nat;
}.

(** [uuid4()] *)
Definition uuid4 : M World UUID :=
  fun w => (Ok (uuid_values w (uuid_drawn w)),
            {| lists := lists w; uuid_values := uuid_values w;
               uuid_drawn := S (uuid_drawn w) |}).

(** A list display or comprehension: a new list object. *)
Definition new_list (l : list pynum) : M World addr :=
  fun w => (Ok (List.length (lists w)),
            {| lists := (lists w ++ [l])%list; uuid_values := uuid_values w;
               uuid_drawn := uuid_drawn w |}).

(** The elements of the list object at [a]. *)
Definition read_list (a : addr) (w : World) : result (list pynum) :=
  of_option (nth_error (lists w) a) Dangling.

Fixpoint store_at {A} (n : nat) (x : A) (l : list A) : list A :=
  match l, n with
  | [], _ => []
  | _ :: t, O => x :: t
  | h :: t, S n' => h :: store_at n' x t
  end.

(** [l.append(v)] on the list object at [a]. *)
Definition list_append (a : addr) (v : pynum) : M World unit :=
  fun w => match nth_error (lists w) a with
           | Some l =>
               (Ok tt, {| lists := store_at a (l ++ [v])%list (lists w);
                          uuid_values := uuid_values w;
                          uuid_drawn := uuid_drawn w |})
           | None => (Raise Dangling, w)
           end.

(** ** [cm2py.py] *)

(** [nan = float("nan")] *)
Definition nan : pynum := PyFloat S754_nan.

(** *** [class Block] *)

Definition position : Type := (pynum * pynum * pynum)%type.

Record Block : Type := {
  blockId : Z;
  pos : position;
  state : bool;
  properties : addr;
  uuid : UUID;
}.

(** The two list objects that the default values [properties = []] of
    [Block.__init__] and of [Save.addBlock] denote.  Each is created once,
    when its [def] is run, in this order. *)
Definition Block_default_properties : addr := 0.
Definition addBlock_default_properties : addr := 1.

Definition default {A} (d : A) (o : option A) : A :=
  match o with Some a => a | None => d end.

(** [Block.__init__]; an argument left out is [None]. *)
Definition Block_init (blockId : Z) (pos : position) (state : option bool)
    (properties : option addr) : M World Block :=
  let state := default false state in
  let properties := default Block_default_properties properties in
  py_assert ((0 <=? blockId)%Z && (blockId <=? 19)%Z)
            "blockId must be between 0 and 19";;
  u <- uuid4;;
  ret {| blockId := blockId; pos := pos; state := state;
         properties := properties; uuid := u |}.

(** [Block.move]; an argument left out is [None] and takes the default
    [nan]. *)
Definition move (self : Block) (x y z : option pynum) : Block :=
  let x := default nan x in
  let y := default nan y in
  let z := default nan z in
  let '(p0, p1, p2) := pos self in
  {| blockId := blockId self;
     pos := (if py_eq x nan then p0 else x,
             if py_eq y nan then p1 else y,
             if py_eq z nan then p2 else z);
     state := state self;
     properties := properties self;
     uuid := uuid self |}.

Section Source.
Context {rt : Runtime}.

(** [str(p)] for a number. *)
Definition str_num (p : pynum) : string :=
  match p with
  | PyInt z => str_int z
  | PyFloat f => float_repr f
  end.

(** [x.is_integer()] *)
Definition is_integer (x : pynum) : result bool :=
  match x with
  | PyInt _ =>
      if int_has_is_integer then Ok true
      else Raise (AttributeError
                    "'int' object has no attribute 'is_integer'")
  | PyFloat f => Ok (float_is_integer f)
  end.

(** [str(int(x)) if x.is_integer() else str(x)] *)
Definition str_coordinate (x : pynum) : result string :=
  b <~ is_integer x;;
  if b then (n <~ py_int x;; Ok (str_int n)) else Ok (str_num x).

(** [Block.__str__] *)
Definition Block_str (self : Block) (w : World) : result string :=
  l <~ read_list (properties self) w;;
  let props := map str_num l in
  let '(p0, p1, p2) := pos self in
  s0 <~ str_coordinate p0;;
  s1 <~ str_coordinate p1;;
  s2 <~ str_coordinate p2;;
  let pos := [s0; s1; s2] in
  Ok (str_int (blockId self) ++ "," ++ str_bool (state self) ++ ","
      ++ join "," pos
      ++ (if Nat.ltb 0 (List.length l) then "," ++ join "+" props
          else EmptyString)).

(** *** [class Save] *)

Definition uuid_pair_eqb (a b : UUID * UUID) : bool :=
  N.eqb (fst a) (fst b) && N.eqb (snd a) (snd b).

Record Save : Type := {
  blocks : dict UUID Block;
  connections : dict (UUID * UUID) (Block * Block);
}.

(** [Save.__init__] *)
Definition Save_init : Save := {| blocks := []; connections := [] |}.

(** The state of a method call: the Save [self] and the store. *)
Record St : Type := { save : Save; world : World }.

Definition in_world {A} (m : M World A) : M St A :=
  fun st => let '(r, w) := m (world st) in (r, {| save := save st; world := w |}).

Definition with_blocks (st : St) (b : dict UUID Block) : St :=
  {| save := {| blocks := b; connections := connections (save st) |};
     world := world st |}.

Definition with_connections (st : St)
    (c : dict (UUID * UUID) (Block * Block)) : St :=
  {| save := {| blocks := blocks (save st); connections := c |};
     world := world st |}.

Definition set_blocks (b : dict UUID Block) : M St unit :=
  fun st => (Ok tt, with_blocks st b).

Definition set_connections (c : dict (UUID * UUID) (Block * Block))
  : M St unit :=
  fun st => (Ok tt, with_connections st c).

(** [Save.addBlock]; an argument left out is [None]. *)
Definition addBlock (blockId : Z) (pos : position) (state : option bool)
    (properties : option addr) (snapToGrid : option bool) : M St Block :=
  let state := default false state in
  let properties := default addBlock_default_properties properties in
  let snapToGrid := default true snapToGrid in
  pos' <- (if snapToGrid then
             let '(p0, p1, p2) := pos in
             lift (a <~ py_int p0;; b <~ py_int p1;; c <~ py_int p2;;
                   Ok (PyInt a, PyInt b, PyInt c))
           else ret pos);;
  newBlock <- in_world (Block_init blockId pos' (Some state) (Some properties));;
  st <- get;;
  set_blocks (dict_set N.eqb (uuid newBlock) newBlock (blocks (save st)));;
  ret newBlock.

(** [Save.addConnection] *)
Definition addConnection (source target : Block) : M St (Block * Block) :=
  let new_connection := (source, target) in
  st <- get;;
  set_connections (dict_set uuid_pair_eqb (uuid source, uuid target)
                     new_connection (connections (save st)));;
  ret new_connection.

(** [for k in d.keys(): body k], for a dictionary [d] of the state.  The
    iterator notes the size of the dictionary when the loop starts; each
    time it is asked for a key, also after the last one, it first raises
    [RuntimeError] if the size is no longer that one.  [keys] are the keys
    still to come.  The loops of this module only delete in their body, so
    that a changed dictionary always has a changed size. *)
Definition size_changed : exn :=
  RuntimeError "dictionary changed size during iteration".

Fixpoint for_keys {S K V} (d : S -> dict K V) (used : nat) (keys : list K)
    (body : K -> M S unit) : M S unit :=
  fun s =>
    if Nat.eqb (List.length (d s)) used then
      match keys with
      | [] => (Ok tt, s)
      | k :: keys' => (body k;; for_keys d used keys' body) s
      end
    else (Raise size_changed, s).

Definition for_dict_keys {S K V} (d : S -> dict K V) (body : K -> M S unit)
  : M S unit :=
  fun s => for_keys d (List.length (d s)) (dict_keys (d s)) body s.

(** [del self.connections[k]] *)
Definition del_connection (k : UUID * UUID) : M St unit :=
  st <- get;;
  c <- lift (of_option (dict_del uuid_pair_eqb k (connections (save st)))
                       KeyError);;
  set_connections c.

(** The body of the loop of [Save.deleteBlock]. *)
Definition deleteBlock_step (blockRef : Block) (c : UUID * UUID)
  : M St unit :=
  if N.eqb (fst c) (uuid blockRef) then
    del_connection (uuid blockRef, snd c)
  else if N.eqb (snd c) (uuid blockRef) then
    del_connection (fst c, uuid blockRef)
  else ret tt.

(** [Save.deleteBlock] *)
Definition deleteBlock (blockRef : Block) : M St unit :=
  st <- get;;
  py_assert (dict_in N.eqb (uuid blockRef) (blocks (save st)))
            "block does not exist in save";;
  for_dict_keys (fun st => connections (save st))
    (deleteBlock_step blockRef);;
  st <- get;;
  b <- lift (of_option (dict_del N.eqb (uuid blockRef) (blocks (save st)))
                       KeyError);;
  set_blocks b.

(** [Save.deleteConnection] *)
Definition deleteConnection (source target : Block) : M St unit :=
  del_connection (uuid source, uuid target).

(** The first loop of [Save.exportSave], over [self.blocks.items()]. *)
Fixpoint export_blocks (items : dict UUID Block) (w : World)
    (indexes : dict UUID Z) (count : Z) (blockstrings : list string)
  : result (dict UUID Z * list string) :=
  match items with
  | [] => Ok (indexes, blockstrings)
  | (uuid, block) :: items' =>
      let indexes := dict_set N.eqb uuid count indexes in
      s <~ Block_str block w;;
      export_blocks items' w indexes (count + 1)%Z (blockstrings ++ [s])%list
  end.

(** The second loop of [Save.exportSave], over [self.connections]. *)
Fixpoint export_connections (keys : list (UUID * UUID))
    (indexes : dict UUID Z) (connectionstrings : list string)
  : result (list string) :=
  match keys with
  | [] => Ok connectionstrings
  | connect :: keys' =>
      i <~ of_option (dict_get N.eqb (fst connect) indexes) KeyError;;
      j <~ of_option (dict_get N.eqb (snd connect) indexes) KeyError;;
      let s := str_int i ++ "," ++ str_int j in
      export_connections keys' indexes (connectionstrings ++ [s])%list
  end.

(** [Save.exportSave]; it reads the Save and the store and changes
    neither. *)
Definition exportSave (self : Save) (w : World) : result string :=
  r <~ export_blocks (blocks self) w [] 1%Z [];;
  let '(indexes, blockstrings) := r in
  connectionstrings <~
    export_connections (dict_keys (connections self)) indexes [];;
  Ok (join ";" blockstrings ++ "?" ++ join ";" connectionstrings ++ "??").

(** *** [validateSave] *)

Definition regex : string :=
  (* Blocks *)
  "(?<![\d\w,;?+])"
  ++ "(?>"
  ++   "(?<b>"
  ++     "\d+,"
  ++     "[01]?"
  ++     "(?>,(?<d>-?\d*\.?\d*" ++ ")){3}"
  ++     "(?>(\+|,)(?&d)(?!,))*"
  ++     ";?"
  ++   ")+"
  ++ "(?<!;)\?"
  ++ ")"
  (* Connections *)
  ++ "(?>"
  ++   "(?<i>[1-9][0-9]*" ++ "),"
  ++   "(?&i)"
  ++   ";?"
  ++ ")*"
  ++ "(?<!;)\?"
  (* Buildings *)
  ++ "(?>"
  ++   "[A-Za-z]+,"
  ++   "(?>(?&d),){3}"
  ++   "(?>(?&d),){9}"
  ++   "(?>[01](?&i),?)*"
  ++   "(?<!,)"
  ++   ";?"
  ++ ")*"
  ++ "(?<!;)\?"
  (* Sign data *)
  ++ "("
  ++   "([0-9a-fA-F]{2})"
  ++ ")*"
  ++ "(?![\d\w,;?+])$".

(** [validateSave]: [re.match(regex, string) != None] *)
Definition validateSave (text : string) : result bool :=
  m <~ re_match regex text;;
  Ok (match m with Some _ => true | None => false end).

(** *** [importSave] *)

(** [[float(p) for p in l]] *)
Fixpoint floats_of (l : list string) : result (list pynum) :=
  match l with
  | [] => Ok []
  | p :: l' =>
      f <~ of_option (float_of_str p)
                     (ValueError "could not convert string to float");;
      r <~ floats_of l';;
      Ok (PyFloat f :: r)
  end.

Definition py_float (s : string) : result pynum :=
  f <~ of_option (float_of_str s)
                 (ValueError "could not convert string to float");;
  Ok (PyFloat f).

Definition int_of (s : string) : result Z :=
  of_option (int_of_str s)
            (ValueError "invalid literal for int() with base 10").

(** The first loop of [importSave], over [blockstring.split(";")]; [blocks]
    is the list of the blocks made so far. *)
Fixpoint import_blocks (records : list string) (snapToGrid : bool)
    (blocks : list Block) : M St (list Block) :=
  match records with
  | [] => ret blocks
  | block :: records' =>
      match split "," block with
      | [block_id; state; x; y; z; properties] =>
          l <- lift (floats_of (split "+" properties));;
          props <- in_world (new_list l);;
          id <- lift (int_of block_id);;
          fx <- lift (py_float x);;
          fy <- lift (py_float y);;
          fz <- lift (py_float z);;
          newblock <- addBlock id (fx, fy, fz) (Some (String.eqb state "1"))
                        (Some props) (Some snapToGrid);;
          import_blocks records' snapToGrid (blocks ++ [newblock])%list
      | fields => raise (unpack_error 6 (List.length fields))
      end
  end.

(** The second loop of [importSave], over [connectionstring.split(";")]. *)
Fixpoint import_connections (entries : list string) (blocks : list Block)
  : M St unit :=
  match entries with
  | [] => ret tt
  | connection :: entries' =>
      match split "," connection with
      | [source; target] =>
          i <- lift (int_of source);;
          b1 <- lift (py_index blocks i);;
          j <- lift (int_of target);;
          b2 <- lift (py_index blocks j);;
          addConnection b1 b2;;
          import_connections entries' blocks
      | fields => raise (unpack_error 2 (List.length fields))
      end
  end.

(** The body of [importSave] after its assertion, run on the new Save. *)
Definition importSave_body (text : string) (snapToGrid : bool) : M St unit :=
  match split "?" text with
  | [blockstring; connectionstring; buildings; sign] =>
      blocks <- import_blocks (split ";" blockstring) snapToGrid [];;
      import_connections (split ";" connectionstring) blocks
  | segments => raise (unpack_error 4 (List.length segments))
  end.

(** [importSave]; [snapToGrid] left out is [None]. *)
Definition importSave (text : string) (snapToGrid : option bool)
  : M World Save :=
  let snapToGrid := default true snapToGrid in
  fun w =>
    match validateSave text with
    | Raise e => (Raise e, w)
    | Ok false => (Raise (AssertionError "invalid save string"), w)
    | Ok true =>
        let newSave := Save_init in
        match importSave_body text snapToGrid
                {| save := newSave; world := w |} with
        | (Ok _, st) => (Ok (save st), world st)
        | (Raise e, st) => (Raise e, world st)
        end
    end.

(** *** Sequences of calls *)

(** A call of a public method of a Save. *)
Inductive call : Type :=
| AddBlock (blockId : Z) (pos : position) (state : option bool)
    (properties : option addr) (snapToGrid : option bool)
| AddConnection (source target : Block)
| DeleteBlock (blockRef : Block)
| DeleteConnection (source target : Block).

Definition run_call (c : call) : M St unit :=
  match c with
  | AddBlock blockId pos state properties snapToGrid =>
      addBlock blockId pos state properties snapToGrid;; ret tt
  | AddConnection source target => addConnection source target;; ret tt
  | DeleteBlock blockRef => deleteBlock blockRef
  | DeleteConnection source target => deleteConnection source target
  end.

(** The state after a sequence of calls, a caller going on after a call
    that raised. *)
Fixpoint run_calls (cs : list call) (st : St) : St :=
  match cs with
  | [] => st
  | c :: cs' => run_calls cs' (snd (run_call c st))
  end.

(** I1: the source and the target of every connection are keys of
    [blocks]. *)
Definition I1 (s : Save) : bool :=
  forallb (fun k => dict_in N.eqb (fst k) (blocks s)
                    && dict_in N.eqb (snd k) (blocks s))
          (dict_keys (connections s)).

(** The key [k] of a connection names the block [u]. *)
Definition references (u : UUID) (k : UUID * UUID) : bool :=
  N.eqb (fst k) u || N.eqb (snd k) u.

End Source.

(** ** A runtime and a store to evaluate on

    [sample_runtime] has the version switches of CPython 3.12.  Its [int]
    and [float] read the decimal integer literals, its [str] writes the
    exact decimal expansion of a float, and its engine finds no match. *)

Definition digit_of (c : ascii) : option Z :=
  let n := nat_of_ascii c in
  if Nat.leb 48 n && Nat.leb n 57 then Some (Z.of_nat (n - 48)) else None.

Fixpoint digits_value (s : string) (acc : Z) : option Z :=
  match s with
  | EmptyString => Some acc
  | String c r =>
      match digit_of c with
      | Some d => digits_value r (10 * acc + d)%Z
      | None => None
      end
  end.

Definition decimal_int (s : string) : option Z :=
  match s with
  | EmptyString => None
  | String c EmptyString => digits_value s 0
  | String c r =>
      if Ascii.eqb c "-" then option_map Z.opp (digits_value r 0)
      else if Ascii.eqb c "+" then digits_value r 0
      else digits_value s 0
  end.

(** The float nearest to an integer. *)
Definition float_of_Z (z : Z) : spec_float :=
  binary_normalize 53 1024 z 0 false.

Fixpoint strip_zeros (rev_digits : list ascii) : list ascii :=
  match rev_digits with
  | c :: r => if Ascii.eqb c "0" then strip_zeros r else rev_digits
  | [] => []
  end.

Fixpoint zeros (n : nat) : string :=
  match n with O => EmptyString | S n' => String "0" (zeros n') end.

Definition float_exact_decimal (f : spec_float) : string :=
  let sign (s : bool) := if s then "-" else EmptyString in
  match f with
  | S754_nan => "nan"
  | S754_infinity s => sign s ++ "inf"
  | S754_zero s => sign s ++ "0.0"
  | S754_finite s m e =>
      if (0 <=? e)%Z then sign s ++ str_int (Z.pos m * 2 ^ e) ++ ".0"
      else
        let k := Z.to_nat (- e) in
        let n := (Z.pos m * 5 ^ Z.of_nat k)%Z in
        let d := str_int (n mod 10 ^ Z.of_nat k) in
        let padded := zeros (k - String.length d) ++ d in
        let frac := rev (strip_zeros (rev (list_ascii_of_string padded))) in
        sign s ++ str_int (n / 10 ^ Z.of_nat k) ++ "."
        ++ match frac with
           | [] => "0"
           | _ => string_of_list_ascii frac
           end
  end.

Definition sample_runtime : Runtime := {|
  re_atomic_groups := true;
  int_has_is_integer := true;
  float_repr := float_exact_decimal;
  float_of_str := fun s => option_map float_of_Z (decimal_int s);
  int_of_str := decimal_int;
  sre_engine := fun _ _ => Ok None;
|}.

(** The store when the module has been imported: the two list objects of
    the default values, both empty; [uuid4()] will return 0, 1, 2, ... *)
Definition world0 : World := {|
  lists := [[]; []];
  uuid_values := N.of_nat;
  uuid_drawn := 0;
|}.

Definition st0 : St := {| save := Save_init; world := world0 |}.

(** ** Scenarios *)

(** A block as [Block(1, (0, 0, 0))] makes it when [uuid4()] returns 0. *)
Definition block0 : Block := {|
  blockId := 1;
  pos := (PyInt 0, PyInt 0, PyInt 0);
  state := false;
  properties := Block_default_properties;
  uuid := 0%N;
|}.

(** The blocks that [a = s.addBlock(1, (0, 0, 0))] and
    [b = s.addBlock(2, (1, 0, 0))] return when [uuid4()] returns 0, then
    1. *)
Definition block_a : Block := {|
  blockId := 1;
  pos := (PyInt 0, PyInt 0, PyInt 0);
  state := false;
  properties := addBlock_default_properties;
  uuid := 0%N;
|}.

Definition block_b : Block := {|
  blockId := 2;
  pos := (PyInt 1, PyInt 0, PyInt 0);
  state := false;
  properties := addBlock_default_properties;
  uuid := 1%N;
|}.

(** [s = Save(); s.addBlock(1, (0, 0, 0))] *)
Definition one_block : M St Block :=
  addBlock 1 (PyInt 0, PyInt 0, PyInt 0) None None None.

(** [s = Save(); a = s.addBlock(1, (0, 0, 0)); b = s.addBlock(2, (1, 0, 0));
    s.addConnection(a, b); s.addConnection(b, a)] *)
Definition two_blocks_linked : M St (Block * Block) :=
  a <- addBlock 1 (PyInt 0, PyInt 0, PyInt 0) None None None;;
  b <- addBlock 2 (PyInt 1, PyInt 0, PyInt 0) None None None;;
  addConnection a b;;
  addConnection b a;;
  ret (a, b).

(** The error that [re] raises when it compiles [regex]. *)
Definition regex_error {rt : Runtime} : exn :=
  if re_atomic_groups then re_error "unknown extension ?<b" 19
  else re_error "unknown extension ?>" 16.

(** [validateSave(s.exportSave())] *)
Definition validate_export {rt : Runtime} (s : Save) (w : World)
  : result bool :=
  text <~ exportSave s w;;
  validateSave text.

(** [importSave(s.exportSave())] *)
Definition import_export {rt : Runtime} (s : Save) (w : World)
  : result Save * World :=
  match exportSave s w with
  | Ok text => importSave text None w
  | Raise e => (Raise e, w)
  end.

(** A call is within the Save when the blocks of an [addConnection] are
    blocks of the Save. *)
Definition call_within (c : call) (s : Save) : bool :=
  match c with
  | AddConnection source target =>
      dict_in N.eqb (uuid source) (blocks s)
      && dict_in N.eqb (uuid target) (blocks s)
  | _ => true
  end.

Fixpoint calls_within (cs : list call) (st : St) : bool :=
  match cs with
  | [] => true
  | c :: cs' =>
      call_within c (save st) && calls_within cs' (snd (run_call c st))
  end.


(** ** What the further properties speak of *)

(** No key occurs twice, as in every [dict]. *)
Fixpoint unique_keys {K} (eqb : K -> K -> bool) (keys : list K) : bool :=
  match keys with
  | [] => true
  | k :: keys' => negb (existsb (eqb k) keys') && unique_keys eqb keys'
  end.

(** The place of [u] in [keys], the first place being [i]. *)
Fixpoint position_of (u : UUID) (keys : list UUID) (i : Z) : option Z :=
  match keys with
  | [] => None
  | k :: keys' => if N.eqb u k then Some i else position_of u keys' (i + 1)%Z
  end.

(** The records of the blocks, in the order of the dictionary. *)
Fixpoint render_blocks {rt : Runtime} (items : dict UUID Block) (w : World)
  : result (list string) :=
  match items with
  | [] => Ok []
  | (_, block) :: items' =>
      s <~ Block_str block w;;
      r <~ render_blocks items' w;;
      Ok (s :: r)
  end.

(** The entries of the connections: the places of the source and of the
    target among the keys of the blocks, counted from 1. *)
Fixpoint render_connections (keys : list (UUID * UUID))
    (block_keys : list UUID) : result (list string) :=
  match keys with
  | [] => Ok []
  | k :: keys' =>
      i <~ of_option (position_of (fst k) block_keys 1) KeyError;;
      j <~ of_option (position_of (snd k) block_keys 1) KeyError;;
      r <~ render_connections keys' block_keys;;
      Ok ((str_int i ++ "," ++ str_int j) :: r)
  end.

(** The save string written from the places of the blocks. *)
Definition export_by_position {rt : Runtime} (s : Save) (w : World)
  : result string :=
  records <~ render_blocks (blocks s) w;;
  pairs <~ render_connections (dict_keys (connections s))
             (dict_keys (blocks s));;
  Ok (join ";" records ++ "?" ++ join ";" pairs ++ "??").

(** Every block of the Save has a record. *)
Definition renders {rt : Runtime} (s : Save) (w : World) : bool :=
  forallb (fun e => is_ok (Block_str (snd e) w)) (blocks s).

(** The Save of [two_blocks_linked]. *)
Definition st_linked : St := snd (two_blocks_linked st0).

(** The Save of [one_block]. *)
Definition st_one : St := snd (one_block st0).

(** What a call of [deleteBlock] comes to, without its loop: [c] is the
    first key of the connections that names the block. *)
Definition deleteBlock_outcome (b : Block) (st : St) : result unit * St :=
  if dict_in N.eqb (uuid b) (blocks (save st)) then
    match find (references (uuid b))
               (dict_keys (connections (save st))) with
    | Some c =>
        match dict_del uuid_pair_eqb c (connections (save st)) with
        | Some cs => (Raise size_changed, with_connections st cs)
        | None => (Raise KeyError, st)
        end
    | None =>
        match dict_del N.eqb (uuid b) (blocks (save st)) with
        | Some bs => (Ok tt, with_blocks st bs)
        | None => (Raise KeyError, st)
        end
    end
  else (Raise (AssertionError "block does not exist in save"), st).

(** The numbers that the first loop of [exportSave] gives to the blocks. *)
Fixpoint index_all (items : dict UUID Block) (indexes : dict UUID Z)
    (count : Z) : dict UUID Z :=
  match items with
  | [] => indexes
  | (uuid, _) :: items' =>
      index_all items' (dict_set N.eqb uuid count indexes) (count + 1)%Z
  end.


(** ** Properties *)

(** *** Python *)

Example split_empty : split ";" EmptyString = [EmptyString].
Proof. reflexivity. Qed.

Example split_three_marks :
  split "?" "???" = [EmptyString; EmptyString; EmptyString; EmptyString].
Proof. reflexivity. Qed.

Example split_commas : split "," "a,,b" = ["a"; EmptyString; "b"].
Proof. reflexivity. Qed.

Example str_int_negative : str_int (-12) = "-12".
Proof. reflexivity. Qed.

Example index_from_the_end : py_index [1; 2; 3]%Z (-1) = Ok 3%Z.
Proof. reflexivity. Qed.

Lemma py_eq_nan (x : pynum) : py_eq x nan = false.
Proof.
  destruct x as [z | f]; simpl.
  - reflexivity.
  - destruct f; reflexivity.
Qed.

Section DictFacts.
Context {K V : Type} (eqb : K -> K -> bool).
Hypothesis eqb_eq : forall a b, eqb a b = true <-> a = b.

Lemma eqb_refl (a : K) : eqb a a = true.
Proof. now apply eqb_eq. Qed.

Lemma dict_in_cons (k k' : K) (v : V) (d : dict K V) :
  dict_in eqb k ((k', v) :: d) = eqb k k' || dict_in eqb k d.
Proof. unfold dict_in; simpl. now destruct (eqb k k'). Qed.

Lemma dict_in_keys (k : K) (d : dict K V) :
  dict_in eqb k d = true <-> In k (dict_keys d).
Proof.
  induction d as [| [k' v] d IH].
  - simpl. split; [discriminate | contradiction].
  - rewrite dict_in_cons, orb_true_iff, IH, eqb_eq. simpl.
    split; intros [H | H]; auto.
Qed.

Lemma dict_keys_set (k : K) (v : V) (d : dict K V) :
  incl (dict_keys (dict_set eqb k v d)) (k :: dict_keys d).
Proof.
  induction d as [| [k' v'] d IH]; simpl.
  - apply incl_refl.
  - destruct (eqb k k'); simpl.
    + apply incl_tl, incl_refl.
    + intros x [<- | H]; [right; now left |].
      destruct (IH x H) as [<- | H']; [now left | right; now right].
Qed.

Lemma dict_in_set (k k' : K) (v : V) (d : dict K V) :
  dict_in eqb k d = true -> dict_in eqb k (dict_set eqb k' v d) = true.
Proof.
  induction d as [| [k0 v0] d IH]; [discriminate |].
  rewrite dict_in_cons. simpl.
  destruct (eqb k' k0); rewrite dict_in_cons;
    destruct (eqb k k0); simpl; auto.
Qed.

Lemma dict_in_set_same (k : K) (v : V) (d : dict K V) :
  dict_in eqb k (dict_set eqb k v d) = true.
Proof.
  induction d as [| [k0 v0] d IH]; simpl.
  - now rewrite dict_in_cons, eqb_refl.
  - destruct (eqb k k0) eqn:E; rewrite dict_in_cons, E; simpl; auto.
Qed.

Lemma dict_del_in (k : K) (d : dict K V) :
  In k (dict_keys d) ->
  exists d', dict_del eqb k d = Some d'
             /\ S (List.length d') = List.length d
             /\ incl (dict_keys d') (dict_keys d).
Proof.
  induction d as [| [k' v'] d IH]; simpl; [contradiction |].
  intros H. destruct (eqb k k') eqn:E.
  - exists d. repeat split. apply incl_tl, incl_refl.
  - destruct H as [-> | H]; [now rewrite eqb_refl in E |].
    destruct (IH H) as (d' & -> & Hlen & Hincl).
    exists ((k', v') :: d'). simpl. repeat split; [now rewrite Hlen |].
    intros x [<- | Hx]; [now left | right; auto].
Qed.

Lemma dict_del_keys (k : K) (d d' : dict K V) :
  dict_del eqb k d = Some d' -> incl (dict_keys d') (dict_keys d).
Proof.
  revert d'. induction d as [| [k' v'] d IH]; simpl; [discriminate |].
  intros d'. destruct (eqb k k').
  - intros [= <-]. apply incl_tl, incl_refl.
  - destruct (dict_del eqb k d) as [d'' |]; [| discriminate].
    intros [= <-]. simpl.
    intros x [<- | Hx]; [now left | right; now apply (IH d'')].
Qed.

Lemma dict_del_other (k u : K) (d d' : dict K V) :
  dict_del eqb u d = Some d' -> dict_in eqb k d = true -> eqb k u = false ->
  dict_in eqb k d' = true.
Proof.
  revert d'. induction d as [| [k' v'] d IH]; simpl; [discriminate |].
  intros d' Hdel Hin Hne. rewrite dict_in_cons in Hin.
  destruct (eqb u k') eqn:E.
  - injection Hdel as <-. apply eqb_eq in E. subst k'.
    now rewrite Hne in Hin.
  - destruct (dict_del eqb u d) as [d'' |]; [| discriminate].
    injection Hdel as <-. rewrite dict_in_cons.
    destruct (eqb k k'); simpl in *; auto.
Qed.

End DictFacts.

(** *** [validateSave] *)

(** The scan on patterns of its own: the groups that [re] knows pass, a
    named group written [(?<x>...)] and a subroutine call [(?&x)] do not. *)
Example scan_known_groups :
  sre_scan true Top 0 "(a(?:b)(?=c)(?!d)(?<=e)(?<!f)(?>g))" = None.
Proof. reflexivity. Qed.

Example scan_named_group :
  sre_scan true Top 0 "a[]()]b(?<x>c)"
  = Some (re_error "unknown extension ?<x" 8).
Proof. reflexivity. Qed.

Example scan_subroutine_call :
  sre_scan true Top 0 "[^]](?&x)" = Some (re_error "unknown extension ?&" 5).
Proof. reflexivity. Qed.

Lemma regex_rejected (atomic : bool) :
  sre_scan atomic Top 0 regex
  = Some (if atomic then re_error "unknown extension ?<b" 19
          else re_error "unknown extension ?>" 16).
Proof. destruct atomic; vm_compute; reflexivity. Qed.

Lemma validateSave_raise {rt : Runtime} (text : string) :
  validateSave text = Raise regex_error.
Proof.
  unfold validateSave, re_match, regex_error.
  rewrite regex_rejected. now destruct re_atomic_groups.
Qed.

Lemma importSave_raise {rt : Runtime} (text : string) (snap : option bool)
    (w : World) :
  importSave text snap w = (Raise regex_error, w).
Proof. unfold importSave. now rewrite validateSave_raise. Qed.

(** C1.  [validateSave] does not return a boolean: on every string, and on
    every interpreter, the call [re.match(regex, string)] raises [re.error]
    while it compiles the pattern, whose named groups [(?<b>...)] are not
    in the syntax of [re]. *)
Theorem C1_validateSave_always_raises :
  forall (rt : Runtime) (text : string),
    validateSave text = Raise regex_error
    /\ (forall b : bool, validateSave text <> Ok b).
Proof.
  intros rt text. rewrite validateSave_raise. split; [reflexivity |].
  intros b; discriminate.
Qed.

(** *** [Block.move] *)

(** What [move] does: the position afterwards is the triple of the
    arguments, an argument left out being [nan]; the rest of the block is as
    before. *)
Lemma move_spec (self : Block) (x y z : option pynum) :
  move self x y z
  = {| blockId := blockId self;
       pos := (default nan x, default nan y, default nan z);
       state := state self;
       properties := properties self;
       uuid := uuid self |}.
Proof.
  unfold move. destruct (pos self) as [[p0 p1] p2].
  now rewrite !py_eq_nan.
Qed.

(** C7, as amended.  The comparison with the sentinel [nan] is false for
    every value, so that [move] never keeps a coordinate on the ground of
    that comparison: every axis for which an argument is given takes that
    argument, whatever is given for the other axes, and the kind, the state,
    the properties and the identity of the block are as before. *)
Theorem C7_move_takes_every_argument :
  forall (self : Block) (x y z : option pynum) (v : pynum),
    py_eq v nan = false
    /\ fst (fst (pos (move self (Some v) y z))) = v
    /\ snd (fst (pos (move self x (Some v) z))) = v
    /\ snd (pos (move self x y (Some v))) = v
    /\ blockId (move self x y z) = blockId self
    /\ state (move self x y z) = state self
    /\ properties (move self x y z) = properties self
    /\ uuid (move self x y z) = uuid self.
Proof.
  intros self x y z v. rewrite !move_spec. simpl.
  split; [apply py_eq_nan | repeat split].
Qed.

(** C7, as stated, fails: [Block(1, (0, 0, 0)).move(x = 5)] changes the
    position. *)
Lemma C7_move_is_not_inert :
  pos (move block0 (Some (PyInt 5)) None None)
  = (PyInt 5, PyFloat S754_nan, PyFloat S754_nan)
  /\ pos (move block0 (Some (PyInt 5)) None None) <> pos block0.
Proof. split; [reflexivity | discriminate]. Qed.

(** *** [Save.exportSave] *)

(** C10.  The export of a Save with no block and no connection is the
    string of three question marks. *)
Theorem C10_export_empty_save :
  forall (rt : Runtime) (w : World),
    exportSave {| blocks := []; connections := [] |} w = Ok "???".
Proof. intros rt w. reflexivity. Qed.

(** *** [Save.deleteBlock] *)

Lemma uuid_pair_eqb_eq (a b : UUID * UUID) :
  uuid_pair_eqb a b = true <-> a = b.
Proof.
  destruct a as [a1 a2], b as [b1 b2]. unfold uuid_pair_eqb; simpl.
  rewrite andb_true_iff, !N.eqb_eq. split.
  - now intros [-> ->].
  - now intros [= -> ->].
Qed.

(** One turn of the loop: a key that names the block is deleted, any other
    key is left. *)
Lemma deleteBlock_step_spec (b : Block) (c : UUID * UUID) (st : St) :
  In c (dict_keys (connections (save st))) ->
  if references (uuid b) c then
    exists cs,
      deleteBlock_step b c st = (Ok tt, with_connections st cs)
      /\ S (List.length cs) = List.length (connections (save st))
      /\ incl (dict_keys cs) (dict_keys (connections (save st)))
  else deleteBlock_step b c st = (Ok tt, st).
Proof.
  intros Hin. unfold references, deleteBlock_step.
  destruct c as [c0 c1]; simpl.
  assert (Hdel : forall k, k = (c0, c1) ->
            exists cs,
              del_connection k st = (Ok tt, with_connections st cs)
              /\ S (List.length cs) = List.length (connections (save st))
              /\ incl (dict_keys cs) (dict_keys (connections (save st)))).
  { intros k ->.
    destruct (dict_del_in uuid_pair_eqb uuid_pair_eqb_eq _ _ Hin)
      as (cs & Hcs & Hlen & Hincl).
    exists cs. split; [| now split].
    unfold del_connection, bind, get, lift. simpl. now rewrite Hcs. }
  destruct (N.eqb c0 (uuid b)) eqn:E0; simpl.
  - apply Hdel. apply N.eqb_eq in E0. now subst.
  - destruct (N.eqb c1 (uuid b)) eqn:E1; simpl.
    + apply Hdel. apply N.eqb_eq in E1. now subst.
    + reflexivity.
Qed.

Lemma for_keys_cons {S K V} (d : S -> dict K V) (used : nat) (k : K)
    (keys : list K) (body : K -> M S unit) (s : S) :
  List.length (d s) = used ->
  for_keys d used (k :: keys) body s
  = match body k s with
    | (Ok _, s') => for_keys d used keys body s'
    | (Raise e, s') => (Raise e, s')
    end.
Proof. intros <-. simpl. now rewrite Nat.eqb_refl. Qed.

Lemma for_keys_changed {S K V} (d : S -> dict K V) (used : nat)
    (keys : list K) (body : K -> M S unit) (s : S) :
  List.length (d s) <> used ->
  for_keys d used keys body s = (Raise size_changed, s).
Proof.
  intros H. apply Nat.eqb_neq in H. destruct keys; simpl; now rewrite H.
Qed.

(** The loop: it ends normally, with the connections untouched, when no key
    to come names the block; otherwise it raises after it has deleted one
    connection. *)
Lemma deleteBlock_loop_spec (b : Block) (keys : list (UUID * UUID)) :
  forall st : St,
    incl keys (dict_keys (connections (save st))) ->
    if existsb (references (uuid b)) keys then
      exists cs,
        for_keys (fun st => connections (save st))
          (List.length (connections (save st))) keys (deleteBlock_step b) st
        = (Raise size_changed, with_connections st cs)
        /\ S (List.length cs) = List.length (connections (save st))
        /\ incl (dict_keys cs) (dict_keys (connections (save st)))
    else
      for_keys (fun st => connections (save st))
        (List.length (connections (save st))) keys (deleteBlock_step b) st
      = (Ok tt, st).
Proof.
  induction keys as [| c keys IH]; intros st Hincl.
  - simpl. now rewrite Nat.eqb_refl.
  - rewrite for_keys_cons by reflexivity.
    assert (Hc : In c (dict_keys (connections (save st))))
      by (apply Hincl; now left).
    assert (Hk : incl keys (dict_keys (connections (save st))))
      by (intros x Hx; apply Hincl; now right).
    pose proof (deleteBlock_step_spec b c st Hc) as Hstep.
    simpl existsb. destruct (references (uuid b) c); simpl orb.
    + destruct Hstep as (cs & -> & Hlen & Hsub).
      exists cs. split; [| now split].
      apply for_keys_changed. simpl. lia.
    + rewrite Hstep. exact (IH st Hk).
Qed.

Lemma deleteBlock_absent (b : Block) (st : St) :
  dict_in N.eqb (uuid b) (blocks (save st)) = false ->
  deleteBlock b st
  = (Raise (AssertionError "block does not exist in save"), st).
Proof.
  intros H. unfold deleteBlock, bind, get, py_assert. now rewrite H.
Qed.

Lemma deleteBlock_referenced (b : Block) (st : St) :
  dict_in N.eqb (uuid b) (blocks (save st)) = true ->
  existsb (references (uuid b)) (dict_keys (connections (save st))) = true ->
  exists cs,
    deleteBlock b st = (Raise size_changed, with_connections st cs)
    /\ S (List.length cs) = List.length (connections (save st))
    /\ incl (dict_keys cs) (dict_keys (connections (save st))).
Proof.
  intros Hin Hex.
  pose proof (deleteBlock_loop_spec b (dict_keys (connections (save st))) st
                (incl_refl _)) as Hloop.
  rewrite Hex in Hloop. destruct Hloop as (cs & Hrun & Hlen & Hsub).
  exists cs. split; [| now split].
  unfold deleteBlock, bind, get, py_assert, for_dict_keys.
  rewrite Hin. unfold ret. now rewrite Hrun.
Qed.

Lemma deleteBlock_unreferenced (b : Block) (st : St) :
  dict_in N.eqb (uuid b) (blocks (save st)) = true ->
  existsb (references (uuid b)) (dict_keys (connections (save st))) = false ->
  exists bs,
    dict_del N.eqb (uuid b) (blocks (save st)) = Some bs
    /\ deleteBlock b st = (Ok tt, with_blocks st bs).
Proof.
  intros Hin Hex.
  pose proof (deleteBlock_loop_spec b (dict_keys (connections (save st))) st
                (incl_refl _)) as Hloop.
  rewrite Hex in Hloop.
  destruct (dict_del_in N.eqb N.eqb_eq (uuid b) (blocks (save st)))
    as (bs & Hbs & _).
  { now apply (dict_in_keys N.eqb N.eqb_eq). }
  exists bs. split; [exact Hbs |].
  unfold deleteBlock, bind, get, py_assert, for_dict_keys.
  rewrite Hin. unfold ret. rewrite Hloop. unfold lift. now rewrite Hbs.
Qed.

(** A block that no connection names is deleted. *)
Example deleteBlock_alone :
  deleteBlock block_a (snd (one_block st0))
  = (Ok tt, with_blocks (snd (one_block st0)) []).
Proof. reflexivity. Qed.

(** C6, the defect.  Whenever a connection names the block, [deleteBlock]
    does not complete: it raises [RuntimeError] at the turn of the loop that
    follows its first deletion.  The block is still in the Save, and exactly
    one connection has been removed. *)
Theorem C6_deleteBlock_raises_when_referenced :
  forall (b : Block) (st : St),
    dict_in N.eqb (uuid b) (blocks (save st)) = true ->
    existsb (references (uuid b)) (dict_keys (connections (save st))) = true ->
    exists st',
      deleteBlock b st = (Raise size_changed, st')
      /\ blocks (save st') = blocks (save st)
      /\ dict_in N.eqb (uuid b) (blocks (save st')) = true
      /\ S (List.length (connections (save st')))
         = List.length (connections (save st)).
Proof.
  intros b st Hin Hex.
  destruct (deleteBlock_referenced b st Hin Hex) as (cs & Hrun & Hlen & _).
  exists (with_connections st cs). simpl. auto.
Qed.

(** C6 at a Save of two blocks [a] and [b] with the connections [(a, b)] and
    [(b, a)]: [deleteBlock(a)] raises, [a] stays, and so does the connection
    [(b, a)], which names [a]. *)
Lemma C6_deleteBlock_witness :
  let st := snd (two_blocks_linked st0) in
  fst (two_blocks_linked st0) = Ok (block_a, block_b)
  /\ dict_in N.eqb (uuid block_a) (blocks (save st)) = true
  /\ existsb (references (uuid block_a))
              (dict_keys (connections (save st))) = true
  /\ (exists st',
        deleteBlock block_a st = (Raise size_changed, st')
        /\ blocks (save st') = blocks (save st)
        /\ dict_in N.eqb (uuid block_a) (blocks (save st')) = true
        /\ S (List.length (connections (save st')))
           = List.length (connections (save st)))
  /\ dict_keys (connections (save (snd (deleteBlock block_a st))))
     = [(uuid block_b, uuid block_a)].
Proof.
  intros st.
  split; [reflexivity |].
  split; [reflexivity |].
  split; [reflexivity |].
  split; [| reflexivity].
  apply (C6_deleteBlock_raises_when_referenced block_a st); reflexivity.
Defined.

(** *** The invariant I1 *)

Lemma I1_spec (s : Save) :
  I1 s = true
  <-> forall k, In k (dict_keys (connections s)) ->
                dict_in N.eqb (fst k) (blocks s) = true
                /\ dict_in N.eqb (snd k) (blocks s) = true.
Proof.
  unfold I1. rewrite forallb_forall.
  split; intros H k Hk; specialize (H k Hk).
  - now apply andb_true_iff.
  - now apply andb_true_iff.
Qed.

(** Fewer connections and more blocks keep I1. *)
Lemma I1_mono (s s' : Save) :
  incl (dict_keys (connections s')) (dict_keys (connections s)) ->
  (forall u, dict_in N.eqb u (blocks s) = true ->
             dict_in N.eqb u (blocks s') = true) ->
  I1 s = true -> I1 s' = true.
Proof.
  intros Hc Hb H. apply I1_spec. intros k Hk.
  destruct (proj1 (I1_spec s) H k (Hc k Hk)). split; now apply Hb.
Qed.

Lemma addBlock_save (blockId : Z) (p : position) (state : option bool)
    (properties : option addr) (snapToGrid : option bool) (st : St) :
  save (snd (addBlock blockId p state properties snapToGrid st)) = save st
  \/ exists b,
       fst (addBlock blockId p state properties snapToGrid st) = Ok b
       /\ save (snd (addBlock blockId p state properties snapToGrid st))
          = {| blocks := dict_set N.eqb (uuid b) b (blocks (save st));
               connections := connections (save st) |}.
Proof.
  unfold addBlock, bind, in_world, Block_init, bind, py_assert, uuid4, get,
    set_blocks, ret, raise, lift.
  destruct p as [[p0 p1] p2].
  destruct (default true snapToGrid).
  - destruct (py_int p0) as [a |]; simpl; [| now left].
    destruct (py_int p1) as [b |]; simpl; [| now left].
    destruct (py_int p2) as [c |]; simpl; [| now left].
    destruct ((0 <=? blockId)%Z && (blockId <=? 19)%Z); simpl; [| now left].
    right. eexists. split; reflexivity.
  - destruct ((0 <=? blockId)%Z && (blockId <=? 19)%Z); simpl; [| now left].
    right. eexists. split; reflexivity.
Qed.

Lemma del_connection_save (k : UUID * UUID) (st : St) :
  blocks (save (snd (del_connection k st))) = blocks (save st)
  /\ incl (dict_keys (connections (save (snd (del_connection k st)))))
          (dict_keys (connections (save st))).
Proof.
  unfold del_connection, bind, get, lift.
  destruct (dict_del uuid_pair_eqb k (connections (save st))) as [cs |] eqn:E;
    simpl.
  - split; [reflexivity |]. exact (dict_del_keys _ _ _ _ E).
  - split; [reflexivity | apply incl_refl].
Qed.

Lemma deleteBlock_I1 (b : Block) (st : St) :
  I1 (save st) = true -> I1 (save (snd (deleteBlock b st))) = true.
Proof.
  intros H.
  destruct (dict_in N.eqb (uuid b) (blocks (save st))) eqn:Hin.
  - destruct (existsb (references (uuid b))
                (dict_keys (connections (save st)))) eqn:Hex.
    + destruct (deleteBlock_referenced b st Hin Hex) as (cs & -> & _ & Hsub).
      simpl. apply (I1_mono (save st)); simpl; auto.
    + destruct (deleteBlock_unreferenced b st Hin Hex) as (bs & Hbs & ->).
      simpl. apply I1_spec. simpl. intros k Hk.
      destruct (proj1 (I1_spec _) H k Hk) as [H0 H1].
      assert (Hno : references (uuid b) k = false).
      { destruct (references (uuid b) k) eqn:E; [| reflexivity].
        rewrite <- Hex. symmetry. apply existsb_exists. now exists k. }
      unfold references in Hno. apply orb_false_iff in Hno as [N0 N1].
      split; eapply (dict_del_other N.eqb N.eqb_eq); eauto.
  - now rewrite deleteBlock_absent.
Qed.

Lemma run_call_I1 (c : call) (st : St) :
  I1 (save st) = true -> call_within c (save st) = true ->
  I1 (save (snd (run_call c st))) = true.
Proof.
  intros H Hw. destruct c as [id p s pr g | src tgt | b | src tgt]; simpl.
  - unfold bind.
    destruct (addBlock_save id p s pr g st) as [E | (b & Eb & E)].
    + destruct (addBlock id p s pr g st) as [[? | ?] st']; simpl in *;
        now rewrite E.
    + destruct (addBlock id p s pr g st) as [[? | ?] st']; simpl in *;
        rewrite E; apply (I1_mono (save st)); simpl; auto using incl_refl;
        intros u; apply dict_in_set.
  - unfold addConnection, bind, get, set_connections, ret. simpl.
    apply andb_true_iff in Hw as [Hs Ht].
    apply I1_spec. simpl. intros k Hk.
    apply dict_keys_set in Hk. destruct Hk as [<- | Hk]; [now split |].
    exact (proj1 (I1_spec _) H k Hk).
  - now apply deleteBlock_I1.
  - unfold deleteConnection.
    destruct (del_connection_save (uuid src, uuid tgt) st) as [Eb Hsub].
    apply (I1_mono (save st)); auto.
    intros u. now rewrite Eb.
Qed.

(** C8, as amended.  Every sequence of calls of [addBlock],
    [addConnection], [deleteBlock] and [deleteConnection] in which each
    [addConnection] is given blocks that are then in the Save keeps I1,
    whether the calls return or raise. *)
Theorem C8_I1_preserved :
  forall (cs : list call) (st : St),
    I1 (save st) = true ->
    calls_within cs st = true ->
    I1 (save (run_calls cs st)) = true.
Proof.
  induction cs as [| c cs IH]; intros st H Hw; simpl in *; [exact H |].
  apply andb_true_iff in Hw as [Hc Hcs].
  apply IH; [now apply run_call_I1 | exact Hcs].
Qed.

(** C8 on a sequence of calls that stays within the Save. *)
Lemma C8_I1_preserved_witness :
  let cs := [AddBlock 1 (PyInt 0, PyInt 0, PyInt 0) None None None;
             AddBlock 2 (PyInt 1, PyInt 0, PyInt 0) None None None;
             AddConnection block_a block_b;
             AddConnection block_b block_a;
             DeleteBlock block_a;
             DeleteConnection block_b block_a;
             DeleteBlock block_a] in
  I1 (save st0) = true
  /\ calls_within cs st0 = true
  /\ I1 (save (run_calls cs st0)) = true
  /\ dict_keys (blocks (save (run_calls cs st0))) = [uuid block_b].
Proof.
  intros cs.
  split; [reflexivity |].
  split; [reflexivity |].
  split; [| reflexivity].
  apply (C8_I1_preserved cs st0); reflexivity.
Defined.

(** C8, as stated, fails: [a = s.addBlock(1, (0, 0, 0)); s.deleteBlock(a);
    s.addConnection(a, a)] leaves a connection whose source and target are
    not in the Save. *)
Lemma C8_I1_broken_by_addConnection :
  let cs := [AddBlock 1 (PyInt 0, PyInt 0, PyInt 0) None None None;
             DeleteBlock block_a;
             AddConnection block_a block_a] in
  I1 (save st0) = true
  /\ fst (one_block st0) = Ok block_a
  /\ blocks (save (run_calls cs st0)) = []
  /\ dict_keys (connections (save (run_calls cs st0)))
     = [(uuid block_a, uuid block_a)]
  /\ I1 (save (run_calls cs st0)) = false.
Proof. intros cs. repeat split. Qed.

(** *** The default properties *)

Lemma addBlock_default_list (blockId : Z) (p : position)
    (state : option bool) (snapToGrid : option bool) (st st' : St)
    (b : Block) :
  addBlock blockId p state None snapToGrid st = (Ok b, st') ->
  properties b = addBlock_default_properties /\ world st' = {|
    lists := lists (world st);
    uuid_values := uuid_values (world st);
    uuid_drawn := S (uuid_drawn (world st)) |}.
Proof.
  unfold addBlock, bind, in_world, Block_init, bind, py_assert, uuid4, get,
    set_blocks, ret, raise, lift.
  destruct p as [[p0 p1] p2].
  destruct (default true snapToGrid).
  - destruct (py_int p0) as [x |]; simpl; [| discriminate].
    destruct (py_int p1) as [y |]; simpl; [| discriminate].
    destruct (py_int p2) as [z |]; simpl; [| discriminate].
    destruct ((0 <=? blockId)%Z && (blockId <=? 19)%Z); simpl;
      [| discriminate].
    intros [= <- <-]. now split.
  - destruct ((0 <=? blockId)%Z && (blockId <=? 19)%Z); simpl;
      [| discriminate].
    intros [= <- <-]. now split.
Qed.

Lemma Block_init_default_list (blockId : Z) (p : position)
    (state : option bool) (w w' : World) (b : Block) :
  Block_init blockId p state None w = (Ok b, w') ->
  properties b = Block_default_properties.
Proof.
  unfold Block_init, bind, py_assert, uuid4, ret, raise.
  destruct ((0 <=? blockId)%Z && (blockId <=? 19)%Z); simpl;
    [| discriminate].
  now intros [= <- <-].
Qed.

Lemma nth_error_store_at {A} (n : nat) (x y : A) (l : list A) :
  nth_error l n = Some y -> nth_error (store_at n x l) n = Some x.
Proof.
  revert n. induction l as [| h t IH]; intros [| n]; simpl;
    try discriminate; auto.
Qed.

Lemma append_then_read (a : addr) (v : pynum) (l : list pynum) (w : World) :
  read_list a w = Ok l ->
  exists w', list_append a v w = (Ok tt, w')
             /\ read_list a w' = Ok (l ++ [v])%list.
Proof.
  unfold read_list, list_append.
  destruct (nth_error (lists w) a) as [l0 |] eqn:E; simpl; [| discriminate].
  intros [= <-]. eexists. split; [reflexivity |].
  unfold read_list. simpl. now rewrite (nth_error_store_at _ _ _ _ E).
Qed.

(** C9, the defect.  Two blocks that [addBlock] makes with the argument
    [properties] left out hold the same list object, the one of the default
    value: what is appended to the properties of the first is read in the
    properties of the second. *)
Theorem C9_default_properties_are_shared :
  forall (id1 id2 : Z) (p1 p2 : position) (s1 s2 g1 g2 : option bool)
         (st st1 st2 : St) (a b : Block) (l : list pynum) (v : pynum),
    addBlock id1 p1 s1 None g1 st = (Ok a, st1) ->
    addBlock id2 p2 s2 None g2 st1 = (Ok b, st2) ->
    read_list (properties b) (world st2) = Ok l ->
    properties a = properties b
    /\ exists w,
         list_append (properties a) v (world st2) = (Ok tt, w)
         /\ read_list (properties b) w = Ok (l ++ [v])%list.
Proof.
  intros id1 id2 p1 p2 s1 s2 g1 g2 st st1 st2 a b l v Ha Hb Hl.
  apply addBlock_default_list in Ha as [Ea _].
  apply addBlock_default_list in Hb as [Eb _].
  rewrite Ea, Eb in *. split; [reflexivity |].
  now apply append_then_read.
Qed.

(** C9 at [a = s.addBlock(1, (0, 0, 0)); b = s.addBlock(2, (1, 0, 0));
    a.properties.append(5)]: the block [b] now has the property 5. *)
Lemma C9_default_properties_witness :
  let st1 := snd (addBlock 1 (PyInt 0, PyInt 0, PyInt 0) None None None st0) in
  let st2 :=
    snd (addBlock 2 (PyInt 1, PyInt 0, PyInt 0) None None None st1) in
  addBlock 1 (PyInt 0, PyInt 0, PyInt 0) None None None st0
  = (Ok block_a, st1)
  /\ addBlock 2 (PyInt 1, PyInt 0, PyInt 0) None None None st1
     = (Ok block_b, st2)
  /\ uuid block_a <> uuid block_b
  /\ read_list (properties block_b) (world st2) = Ok []
  /\ (properties block_a = properties block_b
      /\ exists w,
           list_append (properties block_a) (PyInt 5) (world st2) = (Ok tt, w)
           /\ read_list (properties block_b) w = Ok [PyInt 5]).
Proof.
  intros st1 st2.
  split; [reflexivity |].
  split; [reflexivity |].
  split; [discriminate |].
  split; [reflexivity |].
  apply (C9_default_properties_are_shared 1 2
           (PyInt 0, PyInt 0, PyInt 0) (PyInt 1, PyInt 0, PyInt 0)
           None None None None st0 st1 st2 block_a block_b [] (PyInt 5));
    reflexivity.
Defined.

(** *** Export, then validation or import *)

(** The export of the Save of [one_block]. *)
Lemma export_one_block_value {rt : Runtime} :
  exportSave (save (snd (one_block st0))) (world (snd (one_block st0)))
  = if int_has_is_integer then Ok "1,False,0,0,0???"
    else Raise (AttributeError "'int' object has no attribute 'is_integer'").
Proof.
  unfold exportSave. simpl. unfold Block_str, str_coordinate, is_integer.
  simpl. now destruct int_has_is_integer.
Qed.

Lemma import_body_short_record {rt : Runtime} (text : string)
    (snap : bool) (st : St) :
  text = "1,False,0,0,0???" \/ text = "1,0,0,0,0;1,0,1,0,0?0,1??" ->
  importSave_body text snap st
  = (Raise (ValueError "not enough values to unpack (expected 6, got 5)"),
     st).
Proof. intros [-> | ->]; reflexivity. Qed.

(** C4, the defect.  For no Save does [validateSave(s.exportSave())] return
    [True]: it raises, in [exportSave] or else in [validateSave].  At the
    Save of the single block [addBlock(1, (0, 0, 0))] the exported string is
    ["1,False,0,0,0???"] and [validateSave] raises [re.error]. *)
Theorem C4_validate_export_never_true :
  forall (rt : Runtime) (s : Save) (w : World),
    (exists e, validate_export s w = Raise e)
    /\ validate_export s w <> Ok true
    /\ validate_export (save (snd (one_block st0)))
                       (world (snd (one_block st0)))
       = (if int_has_is_integer then Raise regex_error
          else Raise (AttributeError
                        "'int' object has no attribute 'is_integer'")).
Proof.
  intros rt s w. unfold validate_export.
  rewrite export_one_block_value. split; [| split].
  - destruct (exportSave s w) as [text | e]; simpl.
    + rewrite validateSave_raise. now eexists.
    + now eexists.
  - destruct (exportSave s w) as [text | e]; simpl; [| discriminate].
    now rewrite validateSave_raise.
  - destruct int_has_is_integer; simpl; [| reflexivity].
    now rewrite validateSave_raise.
Qed.

(** C2, the defect.  For no Save does [importSave(s.exportSave())] return a
    Save: it raises.  At the Save of the single block
    [addBlock(1, (0, 0, 0))] the exported string is ["1,False,0,0,0???"];
    [importSave] raises [re.error] in its assertion, and the body of
    [importSave], run on that string, raises [ValueError] when it unpacks
    the five fields of the record into six names. *)
Theorem C2_import_export_never_returns :
  forall (rt : Runtime) (s : Save) (w : World) (snap : bool) (st : St),
    (exists e, fst (import_export s w) = Raise e)
    /\ exportSave (save (snd (one_block st0))) (world (snd (one_block st0)))
       = (if int_has_is_integer then Ok "1,False,0,0,0???"
          else Raise (AttributeError
                        "'int' object has no attribute 'is_integer'"))
    /\ importSave "1,False,0,0,0???" None w = (Raise regex_error, w)
    /\ importSave_body "1,False,0,0,0???" snap st
       = (Raise (ValueError
                   "not enough values to unpack (expected 6, got 5)"), st).
Proof.
  intros rt s w snap st. split; [| split; [| split]].
  - unfold import_export. destruct (exportSave s w) as [text | e]; simpl.
    + rewrite importSave_raise. now eexists.
    + now eexists.
  - apply export_one_block_value.
  - apply importSave_raise.
  - apply import_body_short_record. now left.
Qed.


(** The body of [importSave] on records that have a properties field: the
    connection entry ["0,1"] joins the first block to the second. *)
Example import_body_with_properties :
  let st := snd (importSave_body (rt := sample_runtime)
                   "1,0,0,0,0,1;1,1,1,0,0,2+3?0,1??" true st0) in
  fst (importSave_body (rt := sample_runtime)
         "1,0,0,0,0,1;1,1,1,0,0,2+3?0,1??" true st0) = Ok tt
  /\ map (fun e => (blockId (snd e), state (snd e), pos (snd e)))
         (blocks (save st))
     = [(1%Z, false, (PyInt 0, PyInt 0, PyInt 0));
        (1%Z, true, (PyInt 1, PyInt 0, PyInt 0))]
  /\ dict_keys (connections (save st)) = [(0%N, 1%N)]
  /\ map (fun e => read_list (properties (snd e)) (world st))
         (blocks (save st))
     = [Ok [PyFloat (float_of_Z 1)];
        Ok [PyFloat (float_of_Z 2); PyFloat (float_of_Z 3)]].
Proof. vm_compute. repeat split. Qed.

(** The body of [importSave] reads the one-based indices that [exportSave]
    writes as zero-based ones, and cannot read an empty connections
    segment. *)
Example import_body_indices :
  fst (importSave_body (rt := sample_runtime)
         "1,0,0,0,0,1;1,1,1,0,0,2+3?1,2??" true st0)
  = Raise (IndexError "list index out of range")
  /\ fst (importSave_body (rt := sample_runtime)
            "1,0,0,0,0,1;1,1,1,0,0,2+3???" true st0)
     = Raise (ValueError "not enough values to unpack (expected 2, got 1)").
Proof. vm_compute. repeat split. Qed.




(** ** Further properties *)

(** *** Dictionaries *)

Section DictMore.
Context {K V : Type} (eqb : K -> K -> bool).
Hypothesis eqb_eq : forall a b, eqb a b = true <-> a = b.

Lemma eqb_sym (a b : K) : eqb a b = eqb b a.
Proof.
  destruct (eqb a b) eqn:E, (eqb b a) eqn:F; try reflexivity.
  - apply eqb_eq in E. subst. now rewrite (eqb_refl eqb eqb_eq) in F.
  - apply eqb_eq in F. subst. now rewrite (eqb_refl eqb eqb_eq) in E.
Qed.

Lemma dict_get_set_same (k : K) (v : V) (d : dict K V) :
  dict_get eqb k (dict_set eqb k v d) = Some v.
Proof.
  induction d as [| [k' v'] d IH]; simpl.
  - now rewrite (eqb_refl eqb eqb_eq).
  - destruct (eqb k k') eqn:E; simpl; now rewrite E.
Qed.

Lemma dict_get_set_other (k k' : K) (v : V) (d : dict K V) :
  eqb k' k = false ->
  dict_get eqb k' (dict_set eqb k v d) = dict_get eqb k' d.
Proof.
  intros Hne. induction d as [| [k0 v0] d IH]; simpl.
  - now rewrite Hne.
  - destruct (eqb k k0) eqn:E; simpl.
    + apply eqb_eq in E. subst k0. now rewrite Hne.
    + destruct (eqb k' k0); auto.
Qed.

Lemma dict_in_false_cons (k k' : K) (v : V) (d : dict K V) :
  dict_in eqb k ((k', v) :: d) = false ->
  eqb k k' = false /\ dict_in eqb k d = false.
Proof. rewrite dict_in_cons. apply orb_false_iff. Qed.

Lemma dict_set_absent (k : K) (v : V) (d : dict K V) :
  dict_in eqb k d = false -> dict_set eqb k v d = (d ++ [(k, v)])%list.
Proof.
  induction d as [| [k' v'] d IH]; simpl; [reflexivity |].
  intros H. apply dict_in_false_cons in H as [E H].
  rewrite E. now rewrite IH.
Qed.

Lemma dict_set_idem (k : K) (v : V) (d : dict K V) :
  dict_set eqb k v (dict_set eqb k v d) = dict_set eqb k v d.
Proof.
  induction d as [| [k' v'] d IH]; simpl.
  - now rewrite (eqb_refl eqb eqb_eq).
  - destruct (eqb k k') eqn:E; simpl; rewrite E; [reflexivity |].
    now rewrite IH.
Qed.

Lemma dict_del_set_absent (k : K) (v : V) (d : dict K V) :
  dict_in eqb k d = false -> dict_del eqb k (dict_set eqb k v d) = Some d.
Proof.
  induction d as [| [k' v'] d IH]; simpl.
  - now rewrite (eqb_refl eqb eqb_eq).
  - intros H. apply dict_in_false_cons in H as [E H].
    rewrite E. simpl. rewrite E. now rewrite (IH H).
Qed.

Lemma dict_get_del_other (k k' : K) (d d' : dict K V) :
  dict_del eqb k d = Some d' -> eqb k' k = false ->
  dict_get eqb k' d' = dict_get eqb k' d.
Proof.
  revert d'. induction d as [| [k0 v0] d IH]; simpl; [discriminate |].
  intros d' Hdel Hne. destruct (eqb k k0) eqn:E.
  - injection Hdel as <-. apply eqb_eq in E. subst k0. now rewrite Hne.
  - destruct (dict_del eqb k d) as [d'' |]; [| discriminate].
    injection Hdel as <-. simpl. destruct (eqb k' k0); auto.
Qed.

Lemma dict_del_absent (k : K) (d : dict K V) :
  dict_in eqb k d = false -> dict_del eqb k d = None.
Proof.
  induction d as [| [k' v'] d IH]; simpl; [reflexivity |].
  intros H. apply dict_in_false_cons in H as [E H].
  rewrite E. now rewrite (IH H).
Qed.

Lemma dict_in_existsb (k : K) (d : dict K V) :
  dict_in eqb k d = existsb (eqb k) (dict_keys d).
Proof.
  induction d as [| [k' v'] d IH]; [reflexivity |].
  rewrite dict_in_cons, IH. reflexivity.
Qed.

Lemma dict_del_unique (k : K) (d d' : dict K V) :
  unique_keys eqb (dict_keys d) = true ->
  dict_del eqb k d = Some d' ->
  dict_in eqb k d' = false /\ unique_keys eqb (dict_keys d') = true.
Proof.
  revert d'. induction d as [| [k0 v0] d IH]; simpl; [discriminate |].
  intros d' Hu Hdel. apply andb_true_iff in Hu as [Hn Hu].
  destruct (eqb k k0) eqn:E.
  - injection Hdel as <-. apply eqb_eq in E. subst k0.
    split; [| exact Hu]. rewrite dict_in_existsb.
    now apply negb_true_iff in Hn.
  - destruct (dict_del eqb k d) as [d'' |] eqn:D; [| discriminate].
    injection Hdel as <-. destruct (IH d'' Hu eq_refl) as [Hin Hu'].
    split.
    + rewrite dict_in_cons, E, Hin. reflexivity.
    + simpl. rewrite Hu', andb_true_r. apply negb_true_iff.
      apply negb_true_iff in Hn.
      destruct (existsb (eqb k0) (dict_keys d'')) eqn:X; [| reflexivity].
      apply existsb_exists in X as (x & Hx & Ex).
      rewrite <- Hn. symmetry. apply existsb_exists. exists x.
      split; [| exact Ex]. exact (dict_del_keys eqb k d d'' D x Hx).
Qed.

End DictMore.

(** *** [Save.addBlock] *)

Lemma addBlock_ok (id : Z) (p : position) (s : option bool)
    (pr : option addr) (g : option bool) (st st' : St) (b : Block) :
  addBlock id p s pr g st = (Ok b, st') ->
  ((0 <=? id)%Z && (id <=? 19)%Z = true)
  /\ (if default true g then
        exists x y z,
          py_int (fst (fst p)) = Ok x /\ py_int (snd (fst p)) = Ok y
          /\ py_int (snd p) = Ok z /\ pos b = (PyInt x, PyInt y, PyInt z)
      else pos b = p)
  /\ blockId b = id
  /\ state b = default false s
  /\ properties b = default addBlock_default_properties pr
  /\ uuid b = uuid_values (world st) (uuid_drawn (world st))
  /\ st' = {| save := {| blocks := dict_set N.eqb (uuid b) b
                                     (blocks (save st));
                         connections := connections (save st) |};
              world := {| lists := lists (world st);
                          uuid_values := uuid_values (world st);
                          uuid_drawn := S (uuid_drawn (world st)) |} |}.
Proof.
  unfold addBlock, bind, in_world, Block_init, bind, py_assert, uuid4, get,
    set_blocks, with_blocks, ret, raise, lift.
  destruct p as [[p0 p1] p2].
  destruct (default true g).
  - destruct (py_int p0) as [x |] eqn:E0; simpl; [| discriminate].
    destruct (py_int p1) as [y |] eqn:E1; simpl; [| discriminate].
    destruct (py_int p2) as [z |] eqn:E2; simpl; [| discriminate].
    destruct ((0 <=? id)%Z && (id <=? 19)%Z); simpl; [| discriminate].
    intros [= <- <-]. simpl. repeat split. exists x, y, z. now repeat split.
  - destruct ((0 <=? id)%Z && (id <=? 19)%Z); simpl; [| discriminate].
    intros [= <- <-]. simpl. repeat split.
Qed.

Lemma addBlock_raise (id : Z) (p : position) (s : option bool)
    (pr : option addr) (g : option bool) (st st' : St) (e : exn) :
  addBlock id p s pr g st = (Raise e, st') -> st' = st.
Proof.
  unfold addBlock, bind, in_world, Block_init, bind, py_assert, uuid4, get,
    set_blocks, with_blocks, ret, raise, lift.
  destruct st as [sv w]. destruct p as [[p0 p1] p2].
  destruct (default true g).
  - destruct (py_int p0) as [x |]; simpl; [| now intros [= _ <-]].
    destruct (py_int p1) as [y |]; simpl; [| now intros [= _ <-]].
    destruct (py_int p2) as [z |]; simpl; [| now intros [= _ <-]].
    destruct ((0 <=? id)%Z && (id <=? 19)%Z); simpl;
      [discriminate | now intros [= _ <-]].
  - destruct ((0 <=? id)%Z && (id <=? 19)%Z); simpl;
      [discriminate | now intros [= _ <-]].
Qed.

(** X1.  A call of [addBlock] that raises has changed nothing: neither the
    Save, nor the store, nor the number of identities drawn. *)
Theorem X1_addBlock_failure_changes_nothing :
  forall (id : Z) (p : position) (s : option bool) (pr : option addr)
         (g : option bool) (st st' : St) (e : exn),
    addBlock id p s pr g st = (Raise e, st') -> st' = st.
Proof. intros id p s pr g st st' e. apply addBlock_raise. Qed.

(** X1 at a kind out of range and at a coordinate that is not a number. *)
Lemma X1_addBlock_failure_witness :
  addBlock 20 (PyInt 0, PyInt 0, PyInt 0) None None None st_one
  = (Raise (AssertionError "blockId must be between 0 and 19"), st_one)
  /\ addBlock 1 (PyFloat S754_nan, PyInt 0, PyInt 0) None None None st_one
     = (Raise (ValueError "cannot convert float NaN to integer"), st_one)
  /\ snd (addBlock 20 (PyInt 0, PyInt 0, PyInt 0) None None None st_one)
     = st_one.
Proof.
  split; [reflexivity |]. split; [reflexivity |].
  apply (X1_addBlock_failure_changes_nothing 20
           (PyInt 0, PyInt 0, PyInt 0) None None None st_one _
           (AssertionError "blockId must be between 0 and 19")).
  reflexivity.
Defined.

(** X2.  A call of [addBlock] that returns has a kind between 0 and 19; the
    block it returns has the kind and the state that were passed and the
    identity that [uuid4()] drew; it is what the Save now holds under that
    identity.  The other blocks and the connections are as before. *)
Theorem X2_addBlock_stores_the_block :
  forall (id : Z) (p : position) (s : option bool) (pr : option addr)
         (g : option bool) (st st' : St) (b : Block),
    addBlock id p s pr g st = (Ok b, st') ->
    (0 <= id <= 19)%Z
    /\ blockId b = id
    /\ state b = default false s
    /\ uuid b = uuid_values (world st) (uuid_drawn (world st))
    /\ dict_get N.eqb (uuid b) (blocks (save st')) = Some b
    /\ (forall u, N.eqb u (uuid b) = false ->
                  dict_get N.eqb u (blocks (save st'))
                  = dict_get N.eqb u (blocks (save st)))
    /\ connections (save st') = connections (save st).
Proof.
  intros id p s pr g st st' b H.
  apply addBlock_ok in H as (Hr & _ & Hid & Hs & _ & Hu & ->). simpl.
  apply andb_true_iff in Hr as [H0 H1].
  apply Z.leb_le in H0. apply Z.leb_le in H1.
  repeat split; auto.
  - apply (dict_get_set_same N.eqb N.eqb_eq).
  - intros u Hne. now apply (dict_get_set_other N.eqb N.eqb_eq).
Qed.

Lemma X2_addBlock_stores_witness :
  addBlock 2 (PyInt 1, PyInt 0, PyInt 0) None None None st_one
  = (Ok block_b, snd (addBlock 2 (PyInt 1, PyInt 0, PyInt 0) None None None
                        st_one))
  /\ dict_get N.eqb (uuid block_b)
       (blocks (save (snd (addBlock 2 (PyInt 1, PyInt 0, PyInt 0)
                             None None None st_one))))
     = Some block_b.
Proof.
  split; [reflexivity |].
  apply (X2_addBlock_stores_the_block 2 (PyInt 1, PyInt 0, PyInt 0)
           None None None st_one _ block_b).
  reflexivity.
Defined.

(** X3.  With [snapToGrid] true, or left out, the block that [addBlock]
    returns has [int] coordinates, each [int(c)] of the coordinate [c] that
    was passed; with [snapToGrid] false the position is the one passed. *)
Theorem X3_addBlock_snaps_to_grid :
  forall (id : Z) (p0 p1 p2 : pynum) (s : option bool) (pr : option addr)
         (g : option bool) (st st' : St) (b : Block),
    addBlock id (p0, p1, p2) s pr g st = (Ok b, st') ->
    if default true g then
      exists x y z,
        py_int p0 = Ok x /\ py_int p1 = Ok y /\ py_int p2 = Ok z
        /\ pos b = (PyInt x, PyInt y, PyInt z)
    else pos b = (p0, p1, p2).
Proof.
  intros id p0 p1 p2 s pr g st st' b H.
  now apply addBlock_ok in H as (_ & Hp & _).
Qed.

(** X3 at the coordinates 1.5, -1.5 and 7: they snap to 1, -1 and 7. *)
Lemma X3_addBlock_snaps_witness :
  let p := (PyFloat (S754_finite false 3 (-1)),
            PyFloat (S754_finite true 3 (-1)), PyInt 7) in
  pos (match fst (addBlock 1 p None None None st0) with
       | Ok b => b
       | Raise _ => block0
       end) = (PyInt 1, PyInt (-1), PyInt 7)
  /\ (exists x y z,
        py_int (PyFloat (S754_finite false 3 (-1))) = Ok x
        /\ py_int (PyFloat (S754_finite true 3 (-1))) = Ok y
        /\ py_int (PyInt 7) = Ok z
        /\ pos {| blockId := 1; pos := (PyInt 1, PyInt (-1), PyInt 7);
                  state := false;
                  properties := addBlock_default_properties;
                  uuid := 0%N |} = (PyInt x, PyInt y, PyInt z)).
Proof.
  intros p. split; [reflexivity |].
  apply (X3_addBlock_snaps_to_grid 1
           (PyFloat (S754_finite false 3 (-1)))
           (PyFloat (S754_finite true 3 (-1))) (PyInt 7)
           None None None st0 (snd (addBlock 1 p None None None st0))).
  reflexivity.
Defined.

Lemma position_of_last (u : UUID) (keys : list UUID) (i : Z) :
  existsb (N.eqb u) keys = false ->
  position_of u (keys ++ [u]) i = Some (i + Z.of_nat (List.length keys))%Z.
Proof.
  revert i. induction keys as [| k keys IH]; intros i; simpl.
  - intros _. rewrite N.eqb_refl. f_equal. lia.
  - intros H. apply orb_false_iff in H as [E H]. rewrite E.
    rewrite (IH (i + 1)%Z H). f_equal. lia.
Qed.

(** X4.  When the identity drawn is not yet a key of the Save, [addBlock]
    puts the new block after all the others, and its place, counted from 1,
    is the number of blocks that the Save now has. *)
Theorem X4_addBlock_appends :
  forall (id : Z) (p : position) (s : option bool) (pr : option addr)
         (g : option bool) (st st' : St) (b : Block),
    addBlock id p s pr g st = (Ok b, st') ->
    dict_in N.eqb (uuid b) (blocks (save st)) = false ->
    blocks (save st') = (blocks (save st) ++ [(uuid b, b)])%list
    /\ position_of (uuid b) (dict_keys (blocks (save st'))) 1
       = Some (Z.of_nat (List.length (blocks (save st'))))%Z.
Proof.
  intros id p s pr g st st' b H Hnew.
  apply addBlock_ok in H as (_ & _ & _ & _ & _ & _ & ->). simpl.
  rewrite (dict_set_absent N.eqb (uuid b) b _ Hnew).
  split; [reflexivity |].
  unfold dict_keys. rewrite map_app. simpl.
  rewrite position_of_last.
  - f_equal. rewrite length_app, length_map, Nat2Z.inj_add.
    simpl List.length. lia.
  - rewrite (dict_in_existsb N.eqb) in Hnew. exact Hnew.
Qed.

Lemma X4_addBlock_appends_witness :
  let st' := snd (addBlock 2 (PyInt 1, PyInt 0, PyInt 0) None None None
                    st_one) in
  dict_in N.eqb (uuid block_b) (blocks (save st_one)) = false
  /\ blocks (save st') = [(uuid block_a, block_a); (uuid block_b, block_b)]
  /\ (blocks (save st') = (blocks (save st_one)
                           ++ [(uuid block_b, block_b)])%list
      /\ position_of (uuid block_b) (dict_keys (blocks (save st'))) 1
         = Some (Z.of_nat (List.length (blocks (save st'))))).
Proof.
  intros st'. split; [reflexivity |]. split; [reflexivity |].
  apply (X4_addBlock_appends 2 (PyInt 1, PyInt 0, PyInt 0) None None None
           st_one st' block_b); reflexivity.
Defined.

(** *** [Save.addConnection] and [Save.deleteConnection] *)

Lemma St_eta (st : St) :
  {| save := {| blocks := blocks (save st);
                connections := connections (save st) |};
     world := world st |} = st.
Proof. now destruct st as [[bl cs] w]. Qed.

(** X5.  [addConnection] returns the pair of its arguments, never raises
    and leaves the blocks alone; the Save then holds that pair under the key
    of the two identities.  Adding the same connection again changes
    nothing: the pair is written over, not added twice. *)
Theorem X5_addConnection_overwrites :
  forall (source target : Block) (st : St),
    let st1 := snd (addConnection source target st) in
    fst (addConnection source target st) = Ok (source, target)
    /\ dict_get uuid_pair_eqb (uuid source, uuid target)
         (connections (save st1)) = Some (source, target)
    /\ blocks (save st1) = blocks (save st)
    /\ world st1 = world st
    /\ snd (addConnection source target st1) = st1.
Proof.
  intros source target st. unfold addConnection, bind, get, set_connections,
    with_connections, ret. simpl.
  repeat split.
  - apply (dict_get_set_same uuid_pair_eqb uuid_pair_eqb_eq).
  - now rewrite (dict_set_idem uuid_pair_eqb uuid_pair_eqb_eq).
Qed.

(** X6.  Deleting a connection that has just been added, and that the Save
    did not hold before, gives the Save back as it was. *)
Theorem X6_add_then_delete_connection :
  forall (source target : Block) (st : St),
    dict_in uuid_pair_eqb (uuid source, uuid target) (connections (save st))
    = false ->
    deleteConnection source target (snd (addConnection source target st))
    = (Ok tt, st).
Proof.
  intros source target st H.
  unfold deleteConnection, del_connection, addConnection, bind, get, lift,
    set_connections, with_connections, ret. simpl.
  rewrite (dict_del_set_absent uuid_pair_eqb uuid_pair_eqb_eq _ _ _ H).
  simpl. now rewrite St_eta.
Qed.

Lemma X6_add_then_delete_witness :
  dict_in uuid_pair_eqb (uuid block_a, uuid block_a)
    (connections (save st_linked)) = false
  /\ deleteConnection block_a block_a
       (snd (addConnection block_a block_a st_linked))
     = (Ok tt, st_linked).
Proof.
  split; [reflexivity |].
  apply (X6_add_then_delete_connection block_a block_a st_linked).
  reflexivity.
Defined.

(** X7.  A call of [deleteConnection] that returns has removed the
    connection of the two blocks and no other: the key is no longer in the
    Save, every other key holds what it held, and the blocks and the store
    are as before. *)
Theorem X7_deleteConnection_removes_one :
  forall (source target : Block) (st st' : St),
    unique_keys uuid_pair_eqb (dict_keys (connections (save st))) = true ->
    deleteConnection source target st = (Ok tt, st') ->
    dict_in uuid_pair_eqb (uuid source, uuid target) (connections (save st'))
    = false
    /\ (forall k, uuid_pair_eqb k (uuid source, uuid target) = false ->
                  dict_get uuid_pair_eqb k (connections (save st'))
                  = dict_get uuid_pair_eqb k (connections (save st)))
    /\ S (List.length (connections (save st')))
       = List.length (connections (save st))
    /\ blocks (save st') = blocks (save st)
    /\ world st' = world st.
Proof.
  intros source target st st' Hu.
  unfold deleteConnection, del_connection, bind, get, lift, set_connections,
    with_connections.
  destruct (dict_del uuid_pair_eqb (uuid source, uuid target)
              (connections (save st))) as [cs |] eqn:D; simpl;
    [| discriminate].
  intros [= <-]. simpl.
  destruct (dict_del_unique uuid_pair_eqb uuid_pair_eqb_eq _ _ _ Hu D)
    as [Hin _].
  split; [exact Hin |]. split.
  - intros k Hk.
    exact (dict_get_del_other uuid_pair_eqb uuid_pair_eqb_eq _ _ _ _ D Hk).
  - split; [| now split].
    destruct (dict_del_in uuid_pair_eqb uuid_pair_eqb_eq
                (uuid source, uuid target) (connections (save st)))
      as (cs' & D' & Hlen & _).
    + apply (dict_in_keys uuid_pair_eqb uuid_pair_eqb_eq).
      unfold dict_in.
      destruct (dict_get uuid_pair_eqb (uuid source, uuid target)
                  (connections (save st))) eqn:G; [reflexivity |].
      assert (Habs : dict_in uuid_pair_eqb (uuid source, uuid target)
                       (connections (save st)) = false)
        by (unfold dict_in; now rewrite G).
      rewrite (dict_del_absent uuid_pair_eqb _ _ Habs) in D. discriminate.
    + rewrite D in D'. now injection D' as <-.
Qed.

Lemma X7_deleteConnection_witness :
  let st' := snd (deleteConnection block_a block_b st_linked) in
  unique_keys uuid_pair_eqb (dict_keys (connections (save st_linked))) = true
  /\ deleteConnection block_a block_b st_linked = (Ok tt, st')
  /\ dict_keys (connections (save st')) = [(uuid block_b, uuid block_a)]
  /\ dict_in uuid_pair_eqb (uuid block_a, uuid block_b)
       (connections (save st')) = false.
Proof.
  intros st'. split; [reflexivity |]. split; [reflexivity |].
  split; [reflexivity |].
  apply (X7_deleteConnection_removes_one block_a block_b st_linked st');
    reflexivity.
Defined.

(** X8.  [deleteConnection] on two blocks that the Save does not connect, in
    that direction, raises [KeyError] and changes nothing. *)
Theorem X8_deleteConnection_missing :
  forall (source target : Block) (st : St),
    dict_in uuid_pair_eqb (uuid source, uuid target) (connections (save st))
    = false ->
    deleteConnection source target st = (Raise KeyError, st).
Proof.
  intros source target st H.
  unfold deleteConnection, del_connection, bind, get, lift.
  now rewrite (dict_del_absent uuid_pair_eqb _ _ H).
Qed.

Lemma X8_deleteConnection_missing_witness :
  dict_in uuid_pair_eqb (uuid block_a, uuid block_b)
    (connections (save st_one)) = false
  /\ deleteConnection block_a block_b st_one = (Raise KeyError, st_one).
Proof.
  split; [reflexivity |].
  apply (X8_deleteConnection_missing block_a block_b st_one). reflexivity.
Defined.

(** *** [Save.deleteBlock], without its loop *)

Lemma deleteBlock_step_deletes (b : Block) (c : UUID * UUID) (st : St) :
  In c (dict_keys (connections (save st))) ->
  references (uuid b) c = true ->
  exists cs,
    dict_del uuid_pair_eqb c (connections (save st)) = Some cs
    /\ S (List.length cs) = List.length (connections (save st))
    /\ deleteBlock_step b c st = (Ok tt, with_connections st cs).
Proof.
  intros Hin Href.
  destruct (dict_del_in uuid_pair_eqb uuid_pair_eqb_eq _ _ Hin)
    as (cs & Hcs & Hlen & _).
  exists cs. split; [exact Hcs |]. split; [exact Hlen |].
  unfold references in Href. unfold deleteBlock_step.
  destruct c as [c0 c1]; simpl in *.
  destruct (N.eqb c0 (uuid b)) eqn:E0.
  - apply N.eqb_eq in E0. subst c0.
    unfold del_connection, bind, get, lift. now rewrite Hcs.
  - simpl in Href. rewrite Href. apply N.eqb_eq in Href. subst c1.
    unfold del_connection, bind, get, lift. now rewrite Hcs.
Qed.

Lemma deleteBlock_step_skips (b : Block) (c : UUID * UUID) (st : St) :
  references (uuid b) c = false -> deleteBlock_step b c st = (Ok tt, st).
Proof.
  unfold references, deleteBlock_step. intros H.
  apply orb_false_iff in H as [-> ->]. reflexivity.
Qed.

Lemma deleteBlock_loop_find (b : Block) (keys : list (UUID * UUID)) :
  forall st : St,
    incl keys (dict_keys (connections (save st))) ->
    for_keys (fun st => connections (save st))
      (List.length (connections (save st))) keys (deleteBlock_step b) st
    = match find (references (uuid b)) keys with
      | Some c =>
          match dict_del uuid_pair_eqb c (connections (save st)) with
          | Some cs => (Raise size_changed, with_connections st cs)
          | None => (Raise KeyError, st)
          end
      | None => (Ok tt, st)
      end.
Proof.
  induction keys as [| c keys IH]; intros st Hincl.
  - simpl. now rewrite Nat.eqb_refl.
  - rewrite for_keys_cons by reflexivity. simpl find.
    assert (Hc : In c (dict_keys (connections (save st))))
      by (apply Hincl; now left).
    assert (Hk : incl keys (dict_keys (connections (save st))))
      by (intros x Hx; apply Hincl; now right).
    destruct (references (uuid b) c) eqn:Href.
    + destruct (deleteBlock_step_deletes b c st Hc Href)
        as (cs & -> & Hlen & ->).
      apply for_keys_changed. simpl. lia.
    + rewrite (deleteBlock_step_skips b c st Href). exact (IH st Hk).
Qed.

Lemma deleteBlock_closed_form (b : Block) (st : St) :
  deleteBlock b st = deleteBlock_outcome b st.
Proof.
  unfold deleteBlock, deleteBlock_outcome, bind, get, py_assert,
    for_dict_keys.
  destruct (dict_in N.eqb (uuid b) (blocks (save st))) eqn:Hin;
    [| reflexivity].
  unfold ret. rewrite (deleteBlock_loop_find b _ st (incl_refl _)).
  destruct (find (references (uuid b)) (dict_keys (connections (save st))))
    as [c |].
  - now destruct (dict_del uuid_pair_eqb c (connections (save st))).
  - unfold lift, set_blocks.
    now destruct (dict_del N.eqb (uuid b) (blocks (save st))).
Qed.

(** X9.  What [deleteBlock] comes to.  For a block that is not in the Save
    it raises [AssertionError] and changes nothing.  For a block of the Save
    that no connection names it removes the block and returns.  Otherwise it
    removes the first connection, in the order of the dictionary, that names
    the block, and raises [RuntimeError]. *)
Theorem X9_deleteBlock_outcome :
  forall (b : Block) (st : St), deleteBlock b st = deleteBlock_outcome b st.
Proof. intros b st. apply deleteBlock_closed_form. Qed.

(** X10.  Whatever its outcome, [deleteBlock] leaves every other block, and
    every connection that does not name the block, as they were, and does
    not touch the store. *)
Theorem X10_deleteBlock_frame :
  forall (b : Block) (st : St) (k : UUID * UUID) (u : UUID),
    references (uuid b) k = false ->
    N.eqb u (uuid b) = false ->
    dict_get uuid_pair_eqb k (connections (save (snd (deleteBlock b st))))
    = dict_get uuid_pair_eqb k (connections (save st))
    /\ dict_get N.eqb u (blocks (save (snd (deleteBlock b st))))
       = dict_get N.eqb u (blocks (save st))
    /\ world (snd (deleteBlock b st)) = world st.
Proof.
  intros b st k u Hk Hu.
  rewrite deleteBlock_closed_form. unfold deleteBlock_outcome.
  destruct (dict_in N.eqb (uuid b) (blocks (save st))); [| now repeat split].
  destruct (find (references (uuid b)) (dict_keys (connections (save st))))
    as [c |] eqn:F.
  - destruct (dict_del uuid_pair_eqb c (connections (save st))) as [cs |]
      eqn:D; simpl; [| now repeat split].
    split; [| now split].
    apply (dict_get_del_other uuid_pair_eqb uuid_pair_eqb_eq _ _ _ _ D).
    destruct (uuid_pair_eqb k c) eqn:X; [| reflexivity].
    apply uuid_pair_eqb_eq in X. subst c.
    apply find_some in F as [_ F]. now rewrite Hk in F.
  - destruct (dict_del N.eqb (uuid b) (blocks (save st))) as [bs |] eqn:D;
      simpl; [| now repeat split].
    split; [reflexivity |]. split; [| reflexivity].
    exact (dict_get_del_other N.eqb N.eqb_eq _ _ _ _ D Hu).
Qed.

(** X10 at the Save of two linked blocks [a] and [b], to which a connection
    from [b] to [b] is added: [deleteBlock(a)] raises and leaves the block
    [b] and the connection [(b, b)]. *)
Lemma X10_deleteBlock_frame_witness :
  let st := snd (addConnection block_b block_b st_linked) in
  references (uuid block_a) (uuid block_b, uuid block_b) = false
  /\ N.eqb (uuid block_b) (uuid block_a) = false
  /\ dict_keys (connections (save (snd (deleteBlock block_a st))))
     = [(uuid block_b, uuid block_a); (uuid block_b, uuid block_b)]
  /\ (dict_get uuid_pair_eqb (uuid block_b, uuid block_b)
        (connections (save (snd (deleteBlock block_a st))))
      = dict_get uuid_pair_eqb (uuid block_b, uuid block_b)
          (connections (save st))
      /\ dict_get N.eqb (uuid block_b)
           (blocks (save (snd (deleteBlock block_a st))))
         = dict_get N.eqb (uuid block_b) (blocks (save st))
      /\ world (snd (deleteBlock block_a st)) = world st).
Proof.
  intros st. split; [reflexivity |]. split; [reflexivity |].
  split; [reflexivity |].
  apply (X10_deleteBlock_frame block_a st (uuid block_b, uuid block_b)
           (uuid block_b)); reflexivity.
Defined.

(** X11.  A call of [deleteBlock] that returns was given a block that no
    connection named; it has removed that block and nothing else. *)
Theorem X11_deleteBlock_returns :
  forall (b : Block) (st st' : St),
    unique_keys N.eqb (dict_keys (blocks (save st))) = true ->
    deleteBlock b st = (Ok tt, st') ->
    existsb (references (uuid b)) (dict_keys (connections (save st))) = false
    /\ dict_in N.eqb (uuid b) (blocks (save st)) = true
    /\ dict_in N.eqb (uuid b) (blocks (save st')) = false
    /\ S (List.length (blocks (save st'))) = List.length (blocks (save st))
    /\ connections (save st') = connections (save st)
    /\ world st' = world st.
Proof.
  intros b st st' Hu. rewrite deleteBlock_closed_form.
  unfold deleteBlock_outcome.
  destruct (dict_in N.eqb (uuid b) (blocks (save st))) eqn:Hin;
    [| discriminate].
  destruct (find (references (uuid b)) (dict_keys (connections (save st))))
    as [c |] eqn:F.
  - now destruct (dict_del uuid_pair_eqb c (connections (save st))).
  - destruct (dict_del N.eqb (uuid b) (blocks (save st))) as [bs |] eqn:D;
      [| discriminate].
    intros [= <-]. simpl.
    split.
    { destruct (existsb (references (uuid b))
                  (dict_keys (connections (save st)))) eqn:X;
        [| reflexivity].
      apply existsb_exists in X as (x & Hx & Ex).
      now rewrite (find_none _ _ F x Hx) in Ex. }
    split; [reflexivity |].
    destruct (dict_del_unique N.eqb N.eqb_eq _ _ _ Hu D) as [Hgone _].
    split; [exact Hgone |].
    split; [| now split].
    destruct (dict_del_in N.eqb N.eqb_eq (uuid b) (blocks (save st)))
      as (bs' & D' & Hlen & _).
    + now apply (dict_in_keys N.eqb N.eqb_eq).
    + rewrite D in D'. now injection D' as <-.
Qed.

Lemma X11_deleteBlock_returns_witness :
  unique_keys N.eqb (dict_keys (blocks (save st_one))) = true
  /\ deleteBlock block_a st_one = (Ok tt, with_blocks st_one [])
  /\ dict_in N.eqb (uuid block_a) (blocks (save (with_blocks st_one [])))
     = false.
Proof.
  split; [reflexivity |]. split; [reflexivity |].
  apply (X11_deleteBlock_returns block_a st_one (with_blocks st_one []));
    reflexivity.
Defined.

(** *** [Block.move] and [Block.__str__] *)

(** X12.  A second [move] undoes the first entirely: the position after two
    calls of [move] is the one that the second call alone gives, whatever
    arguments the first was given and whatever are left out in the
    second. *)
Theorem X12_move_twice :
  forall (self : Block) (x y z x' y' z' : option pynum),
    move (move self x y z) x' y' z' = move self x' y' z'.
Proof. intros. now rewrite !move_spec. Qed.




(** *** [Save.exportSave], by the places of the blocks *)

Lemma export_blocks_spec {rt : Runtime} (items : dict UUID Block)
    (w : World) :
  forall (indexes : dict UUID Z) (count : Z) (acc : list string),
    export_blocks items w indexes count acc
    = match render_blocks items w with
      | Ok rs => Ok (index_all items indexes count, (acc ++ rs)%list)
      | Raise e => Raise e
      end.
Proof.
  induction items as [| [u b] items IH]; intros indexes count acc; simpl.
  - now rewrite app_nil_r.
  - destruct (Block_str b w) as [s |]; simpl; [| reflexivity].
    rewrite IH. destruct (render_blocks items w); simpl; [| reflexivity].
    now rewrite <- app_assoc.
Qed.

Lemma index_all_in (items : dict UUID Block) :
  forall (indexes : dict UUID Z) (count : Z) (u : UUID),
    dict_in N.eqb u (index_all items indexes count)
    = dict_in N.eqb u indexes || dict_in N.eqb u items.
Proof.
  induction items as [| [k b] items IH]; intros indexes count u; simpl.
  - now rewrite orb_false_r.
  - rewrite IH, dict_in_cons.
    destruct (N.eqb u k) eqn:E.
    + apply N.eqb_eq in E. subst k.
      rewrite (dict_in_set_same N.eqb N.eqb_eq). simpl.
      now rewrite orb_true_r.
    + simpl. f_equal. unfold dict_in.
      now rewrite (dict_get_set_other N.eqb N.eqb_eq _ _ _ _ E).
Qed.

Lemma position_of_none (u : UUID) (keys : list UUID) (i : Z) :
  existsb (N.eqb u) keys = false -> position_of u keys i = None.
Proof.
  revert i. induction keys as [| k keys IH]; intros i; simpl;
    [reflexivity |].
  intros H. apply orb_false_iff in H as [-> H]. now apply IH.
Qed.

Lemma index_all_get (items : dict UUID Block) :
  forall (indexes : dict UUID Z) (count : Z) (u : UUID),
    unique_keys N.eqb (dict_keys items) = true ->
    dict_get N.eqb u (index_all items indexes count)
    = match position_of u (dict_keys items) count with
      | Some i => Some i
      | None => dict_get N.eqb u indexes
      end.
Proof.
  induction items as [| [k b] items IH]; intros indexes count u Hu; simpl;
    [reflexivity |].
  simpl in Hu. apply andb_true_iff in Hu as [Hk Hu].
  apply negb_true_iff in Hk.
  rewrite (IH _ _ _ Hu). destruct (N.eqb u k) eqn:E.
  - apply N.eqb_eq in E. subst k.
    rewrite (position_of_none _ _ _ Hk).
    apply (dict_get_set_same N.eqb N.eqb_eq).
  - now rewrite (dict_get_set_other N.eqb N.eqb_eq _ _ _ _ E).
Qed.

Lemma export_connections_spec (keys : list (UUID * UUID))
    (indexes : dict UUID Z) (block_keys : list UUID) :
  (forall u, dict_get N.eqb u indexes = position_of u block_keys 1) ->
  forall acc : list string,
    export_connections keys indexes acc
    = match render_connections keys block_keys with
      | Ok r => Ok (acc ++ r)%list
      | Raise e => Raise e
      end.
Proof.
  intros Hidx. induction keys as [| k keys IH]; intros acc; simpl.
  - now rewrite app_nil_r.
  - rewrite !Hidx.
    destruct (position_of (fst k) block_keys 1) as [i |]; simpl;
      [| reflexivity].
    destruct (position_of (snd k) block_keys 1) as [j |]; simpl;
      [| reflexivity].
    rewrite IH. destruct (render_connections keys block_keys); simpl;
      [| reflexivity].
    now rewrite <- app_assoc.
Qed.

(** X14.  [exportSave] numbers the blocks by their place in the order of
    insertion, from 1: it writes the records of the blocks in that order,
    then each connection as the places of its source and of its target, and
    raises where the record of a block raises, or [KeyError] where a
    connection names a block that has no place. *)
Theorem X14_exportSave_by_position :
  forall (rt : Runtime) (s : Save) (w : World),
    unique_keys N.eqb (dict_keys (blocks s)) = true ->
    exportSave s w = export_by_position s w.
Proof.
  intros rt s w Hu. unfold exportSave, export_by_position.
  rewrite export_blocks_spec.
  destruct (render_blocks (blocks s) w) as [rs |]; simpl; [| reflexivity].
  rewrite (export_connections_spec _ _ (dict_keys (blocks s))).
  - now destruct (render_connections _ _).
  - intros u. rewrite (index_all_get _ _ _ _ Hu).
    now destruct (position_of u (dict_keys (blocks s)) 1).
Qed.

Lemma X14_exportSave_by_position_witness :
  unique_keys N.eqb (dict_keys (blocks (save st_linked))) = true
  /\ export_by_position (rt := sample_runtime) (save st_linked)
       (world st_linked)
     = Ok "1,False,0,0,0;2,False,1,0,0?1,2;2,1??"
  /\ exportSave (rt := sample_runtime) (save st_linked) (world st_linked)
     = export_by_position (rt := sample_runtime) (save st_linked)
         (world st_linked).
Proof.
  split; [reflexivity |]. split; [reflexivity |].
  apply (X14_exportSave_by_position sample_runtime (save st_linked)
           (world st_linked)).
  reflexivity.
Defined.

Lemma forallb_same {A} (f g : A -> bool) (l : list A) :
  (forall x, f x = g x) -> forallb f l = forallb g l.
Proof.
  intros H. induction l as [| x l IH]; simpl; [reflexivity |].
  now rewrite H, IH.
Qed.

Lemma render_blocks_ok {rt : Runtime} (s : Save) (w : World) :
  is_ok (render_blocks (blocks s) w) = renders s w.
Proof.
  unfold renders. induction (blocks s) as [| [u b] items IH]; simpl;
    [reflexivity |].
  destruct (Block_str b w); simpl; [| reflexivity].
  rewrite <- IH. now destruct (render_blocks items w).
Qed.

Lemma export_connections_ok (keys : list (UUID * UUID))
    (indexes : dict UUID Z) :
  forall acc : list string,
    is_ok (export_connections keys indexes acc)
    = forallb (fun k => dict_in N.eqb (fst k) indexes
                        && dict_in N.eqb (snd k) indexes) keys.
Proof.
  induction keys as [| k keys IH]; intros acc; simpl; [reflexivity |].
  unfold dict_in at 1 2. unfold UUID in *.
  destruct (dict_get N.eqb (fst k) indexes); simpl; [| reflexivity].
  destruct (dict_get N.eqb (snd k) indexes); simpl; [| reflexivity].
  apply IH.
Qed.

Lemma exportSave_outcome {rt : Runtime} (s : Save) (w : World) :
  is_ok (exportSave s w) = renders s w && I1 s
  /\ (renders s w && negb (I1 s) = true -> exportSave s w = Raise KeyError).
Proof.
  assert (Hc : forall acc,
             is_ok (export_connections (dict_keys (connections s))
                      (index_all (blocks s) [] 1) acc) = I1 s).
  { intros acc. rewrite export_connections_ok. unfold I1.
    apply forallb_same. intros k. now rewrite !index_all_in. }
  unfold exportSave. rewrite export_blocks_spec, <- render_blocks_ok.
  destruct (render_blocks (blocks s) w) as [rs |]; simpl.
  - specialize (Hc []).
    destruct (export_connections (dict_keys (connections s))
                (index_all (blocks s) [] 1) []) as [cs | e] eqn:E; simpl in *.
    + split; [exact Hc |]. rewrite <- Hc. discriminate.
    + split; [exact Hc |]. intros _. f_equal.
      clear Hc. revert E. generalize (@nil string).
      induction (dict_keys (connections s)) as [| k keys IH]; intros acc;
        simpl; [discriminate |].
      destruct (dict_get N.eqb (fst k) (index_all (blocks s) [] 1)); simpl;
        [| now intros [= <-]].
      destruct (dict_get N.eqb (snd k) (index_all (blocks s) [] 1)); simpl;
        [| now intros [= <-]].
      apply IH.
  - split; [reflexivity | discriminate].
Qed.

(** X15.  [exportSave] returns a string exactly when every block has a
    record and the Save satisfies I1. *)
Theorem X15_exportSave_returns_iff_I1 :
  forall (rt : Runtime) (s : Save) (w : World),
    is_ok (exportSave s w) = renders s w && I1 s.
Proof. intros rt s w. apply exportSave_outcome. Qed.

(** X17.  When the blocks have their records and a connection names a block
    that is not in the Save, [exportSave] raises [KeyError]. *)
Theorem X17_exportSave_KeyError :
  forall (rt : Runtime) (s : Save) (w : World),
    renders s w = true -> I1 s = false -> exportSave s w = Raise KeyError.
Proof.
  intros rt s w Hr Hi. apply exportSave_outcome. now rewrite Hr, Hi.
Qed.

(** X17 at the Save that [a = s.addBlock(1, (0, 0, 0)); s.deleteBlock(a);
    s.addConnection(a, a)] leaves. *)
Lemma X17_exportSave_KeyError_witness :
  let st := run_calls
              [AddBlock 1 (PyInt 0, PyInt 0, PyInt 0) None None None;
               DeleteBlock block_a;
               AddConnection block_a block_a] st0 in
  renders (rt := sample_runtime) (save st) (world st) = true
  /\ I1 (save st) = false
  /\ exportSave (rt := sample_runtime) (save st) (world st) = Raise KeyError.
Proof.
  intros st. split; [reflexivity |]. split; [reflexivity |].
  apply (X17_exportSave_KeyError sample_runtime (save st) (world st));
    reflexivity.
Defined.

(** *** [importSave] *)

(** X16.  [importSave] returns no Save, whatever the string and whatever
    [snapToGrid]: it raises [re.error] in its assertion and leaves the store
    as it was. *)
Theorem X16_importSave_never_returns :
  forall (rt : Runtime) (text : string) (snapToGrid : option bool)
         (w : World),
    importSave text snapToGrid w = (Raise regex_error, w).
Proof. intros rt text snapToGrid w. apply importSave_raise. Qed.

(** *** The body of [importSave] *)

(** The store with one more list object. *)
Lemma in_world_new_list (l : list pynum) (st : St) :
  in_world (new_list l) st
  = (Ok (List.length (lists (world st))),
     {| save := save st;
        world := {| lists := (lists (world st) ++ [l])%list;
                    uuid_values := uuid_values (world st);
                    uuid_drawn := uuid_drawn (world st) |} |}).
Proof. reflexivity. Qed.

(** One turn of the first loop of the body: it raises and leaves the Save
    alone, or it adds one block, whose properties are a new list object, and
    goes on. *)
Lemma import_blocks_step {rt : Runtime} (block : string)
    (records : list string) (snap : bool) (acc : list Block) (st : St) :
  (exists e st1,
      import_blocks (block :: records) snap acc st = (Raise e, st1)
      /\ save st1 = save st)
  \/ (exists id p s l nb st1 st2,
         save st1 = save st
         /\ lists (world st1) = (lists (world st) ++ [l])%list
         /\ addBlock id p s (Some (List.length (lists (world st))))
              (Some snap) st1 = (Ok nb, st2)
         /\ import_blocks (block :: records) snap acc st
            = import_blocks records snap (acc ++ [nb])%list st2).
Proof.
  cbn [import_blocks].
  destruct (split "," block)
    as [| a [| b [| c [| d [| e [| f [| g fields]]]]]]];
    try (left; eexists; eexists; split; reflexivity).
  unfold bind, lift.
  destruct (floats_of (split "+" f)) as [l |];
    [| left; eexists; eexists; split; reflexivity].
  rewrite in_world_new_list.
  destruct (int_of a) as [id |];
    [| left; eexists; eexists; split; reflexivity].
  destruct (py_float c) as [fx |];
    [| left; eexists; eexists; split; reflexivity].
  destruct (py_float d) as [fy |];
    [| left; eexists; eexists; split; reflexivity].
  destruct (py_float e) as [fz |];
    [| left; eexists; eexists; split; reflexivity].
  match goal with
  | |- context [addBlock ?i ?p ?s ?pr ?g ?st1] =>
      destruct (addBlock i p s pr g st1) as [[nb | err] st2] eqn:A
  end.
  - right. do 7 eexists. split; [| split; [| split; [exact A |]]];
      reflexivity.
  - left. apply addBlock_raise in A. subst st2.
    eexists; eexists; split; reflexivity.
Qed.

Lemma import_blocks_short {rt : Runtime} (records : list string)
    (snap : bool) :
  forall (acc : list Block) (st : St),
    existsb (fun r => negb (Nat.eqb (List.length (split "," r)) 6)) records
    = true ->
    is_ok (fst (import_blocks records snap acc st)) = false.
Proof.
  induction records as [| r records IH]; intros acc st H; simpl in H;
    [discriminate |].
  destruct (Nat.eqb (List.length (split "," r)) 6) eqn:E; simpl in H.
  - destruct (import_blocks_step r records snap acc st)
      as [(e & st1 & -> & _) | (id & p & s & l & nb & st1 & st2 & _ & _ & _
                                & ->)].
    + reflexivity.
    + now apply IH.
  - cbn [import_blocks].
    destruct (split "," r)
      as [| a [| b [| c [| d [| e [| f [| g fields]]]]]]];
      try reflexivity.
    discriminate E.
Qed.

(** X18.  The body of [importSave] reads a block record only if it has
    exactly six fields between commas: a string in which some record of the
    blocks segment has another number of fields, as a record without
    properties has, yields no Save. *)
Theorem X18_import_needs_six_fields :
  forall (rt : Runtime) (text blockstring connectionstring buildings sign
            : string) (snap : bool) (st : St),
    split "?" text = [blockstring; connectionstring; buildings; sign] ->
    existsb (fun r => negb (Nat.eqb (List.length (split "," r)) 6))
            (split ";" blockstring) = true ->
    is_ok (fst (importSave_body text snap st)) = false.
Proof.
  intros rt text bs cs bd sg snap st Hs Hr.
  unfold importSave_body. rewrite Hs. unfold bind.
  pose proof (import_blocks_short (split ";" bs) snap [] st Hr) as H.
  destruct (import_blocks (split ";" bs) snap [] st) as [[bl | e] st'];
    [discriminate | reflexivity].
Qed.

Lemma X18_import_needs_six_fields_witness :
  split "?" "1,0,0,0,0,1;1,0,1,0,0?0,1??"
  = ["1,0,0,0,0,1;1,0,1,0,0"; "0,1"; EmptyString; EmptyString]
  /\ existsb (fun r => negb (Nat.eqb (List.length (split "," r)) 6))
             (split ";" "1,0,0,0,0,1;1,0,1,0,0") = true
  /\ is_ok (fst (importSave_body (rt := sample_runtime)
                   "1,0,0,0,0,1;1,0,1,0,0?0,1??" true st0)) = false.
Proof.
  split; [reflexivity |]. split; [reflexivity |].
  apply (X18_import_needs_six_fields sample_runtime
           "1,0,0,0,0,1;1,0,1,0,0?0,1??" "1,0,0,0,0,1;1,0,1,0,0" "0,1"
           EmptyString EmptyString true st0); reflexivity.
Defined.

(** X19.  The body of [importSave] yields no Save from a string whose
    connections segment is empty: the segment splits into one empty entry,
    which does not unpack into a source and a target. *)
Theorem X19_import_needs_a_connection :
  forall (rt : Runtime) (text blockstring buildings sign : string)
         (snap : bool) (st : St),
    split "?" text = [blockstring; EmptyString; buildings; sign] ->
    is_ok (fst (importSave_body text snap st)) = false.
Proof.
  intros rt text bs bd sg snap st Hs.
  unfold importSave_body. rewrite Hs. unfold bind.
  destruct (import_blocks (split ";" bs) snap [] st) as [[bl | e] st'];
    reflexivity.
Qed.

Lemma X19_import_needs_a_connection_witness :
  split "?" "1,0,0,0,0,1???"
  = ["1,0,0,0,0,1"; EmptyString; EmptyString; EmptyString]
  /\ fst (importSave_body (rt := sample_runtime) "1,0,0,0,0,1???" true st0)
     = Raise (ValueError "not enough values to unpack (expected 2, got 1)")
  /\ is_ok (fst (importSave_body (rt := sample_runtime)
                   "1,0,0,0,0,1???" true st0)) = false.
Proof.
  split; [reflexivity |]. split; [reflexivity |].
  apply (X19_import_needs_a_connection sample_runtime "1,0,0,0,0,1???"
           "1,0,0,0,0,1" EmptyString EmptyString true st0).
  reflexivity.
Defined.

Lemma import_blocks_lists {rt : Runtime} (records : list string)
    (snap : bool) :
  forall (acc bl : list Block) (st st' : St),
    import_blocks records snap acc st = (Ok bl, st') ->
    map properties bl
    = (map properties acc
       ++ seq (List.length (lists (world st))) (List.length records))%list.
Proof.
  induction records as [| r records IH]; intros acc bl st st' H.
  - simpl in H. injection H as <- <-. simpl. now rewrite app_nil_r.
  - destruct (import_blocks_step r records snap acc st)
      as [(e & st1 & E & _) | (id & p & s & l & nb & st1 & st2 & _ & Hl & A
                               & E)];
      rewrite E in H; [discriminate |].
    apply IH in H. rewrite H.
    apply addBlock_ok in A as (_ & _ & _ & _ & Hp & _ & ->). simpl.
    rewrite Hl, length_app, map_app, <- app_assoc. simpl. rewrite Hp.
    simpl. now rewrite Nat.add_1_r.
Qed.

(** X20.  The blocks that the first loop of the body of [importSave] makes
    hold list objects that the loop has created, one for each record and in
    the order of the records: no two of these blocks share their
    properties, and none holds a list that existed before. *)
Theorem X20_import_makes_new_lists :
  forall (rt : Runtime) (records : list string) (snap : bool)
         (bl : list Block) (st st' : St),
    import_blocks records snap [] st = (Ok bl, st') ->
    map properties bl
    = seq (List.length (lists (world st))) (List.length records)
    /\ NoDup (map properties bl)
    /\ List.length bl = List.length records.
Proof.
  intros rt records snap bl st st' H.
  apply import_blocks_lists in H. simpl in H.
  split; [exact H |]. split.
  - rewrite H. apply seq_NoDup.
  - rewrite <- (length_map properties bl), H. apply length_seq.
Qed.

Lemma X20_import_makes_new_lists_witness :
  let r := import_blocks (rt := sample_runtime)
             ["1,0,0,0,0,1"; "1,1,1,0,0,2+3"] true [] st0 in
  map blockId (match fst r with Ok bl => bl | Raise _ => [] end)
  = [1%Z; 1%Z]
  /\ map properties (match fst r with Ok bl => bl | Raise _ => [] end)
     = seq (List.length (lists (world st0))) 2.
Proof.
  intros r. split; [reflexivity |].
  apply (X20_import_makes_new_lists sample_runtime
           ["1,0,0,0,0,1"; "1,1,1,0,0,2+3"] true _ st0 (snd r)).
  reflexivity.
Defined.

Lemma py_index_out_of_range {A} (l : list A) (i : Z) :
  (Z.of_nat (List.length l) <= i)%Z \/ (i < - Z.of_nat (List.length l))%Z ->
  py_index l i = Raise (IndexError "list index out of range").
Proof.
  intros H. unfold py_index.
  destruct (i <? 0)%Z eqn:Hneg.
  - apply Z.ltb_lt in Hneg.
    replace (i + Z.of_nat (List.length l) <? 0)%Z with true; [reflexivity |].
    symmetry. apply Z.ltb_lt. lia.
  - apply Z.ltb_ge in Hneg. rewrite (proj2 (Z.ltb_ge i 0) Hneg).
    replace (nth_error l (Z.to_nat i)) with (@None A); [reflexivity |].
    symmetry. apply nth_error_None. lia.
Qed.

(** X21.  The second loop of the body of [importSave] takes the first
    number of an entry as an index into the blocks that counts from 0, or,
    when negative, from the end: an index that is the number of the blocks
    or more, as [exportSave] writes for the last block, or that is below
    minus that number, raises [IndexError], and no connection is added. *)
Theorem X21_import_index_out_of_range :
  forall (rt : Runtime) (connection source target : string)
         (entries : list string) (blocks : list Block) (i : Z) (st : St),
    split "," connection = [source; target] ->
    int_of_str source = Some i ->
    (Z.of_nat (List.length blocks) <= i)%Z
    \/ (i < - Z.of_nat (List.length blocks))%Z ->
    import_connections (connection :: entries) blocks st
    = (Raise (IndexError "list index out of range"), st).
Proof.
  intros rt connection source target entries bl i st Hs Hi Hout.
  cbn [import_connections]. rewrite Hs.
  unfold bind, lift, int_of. rewrite Hi. simpl.
  now rewrite (py_index_out_of_range bl i Hout).
Qed.

Lemma X21_import_index_witness :
  split "," "2,1" = ["2"; "1"]
  /\ int_of_str (Runtime := sample_runtime) "2" = Some 2%Z
  /\ import_connections (rt := sample_runtime) ["2,1"] [block_a; block_b]
       st_linked
     = (Raise (IndexError "list index out of range"), st_linked).
Proof.
  split; [reflexivity |]. split; [reflexivity |].
  apply (X21_import_index_out_of_range sample_runtime "2,1" "2" "1" []
           [block_a; block_b] 2 st_linked); try reflexivity.
  left. vm_compute. discriminate.
Defined.

Lemma py_index_In {A} (l : list A) (i : Z) (x : A) :
  py_index l i = Ok x -> In x l.
Proof.
  unfold py_index.
  destruct ((if (i <? 0)%Z then (i + Z.of_nat (List.length l))%Z else i)
            <? 0)%Z; [discriminate |].
  destruct (nth_error l _) as [y |] eqn:E; simpl; [| discriminate].
  intros [= <-]. exact (nth_error_In _ _ E).
Qed.

Lemma import_blocks_I1 {rt : Runtime} (records : list string)
    (snap : bool) :
  forall (acc : list Block) (st : St),
    I1 (save st) = true ->
    Forall (fun b => dict_in N.eqb (uuid b) (blocks (save st)) = true) acc ->
    I1 (save (snd (import_blocks records snap acc st))) = true
    /\ (forall bl, fst (import_blocks records snap acc st) = Ok bl ->
          Forall (fun b =>
                    dict_in N.eqb (uuid b)
                      (blocks (save (snd (import_blocks records snap acc
                                            st)))) = true) bl).
Proof.
  induction records as [| r records IH]; intros acc st HI Hacc.
  - simpl. split; [exact HI |]. now intros bl [= <-].
  - destruct (import_blocks_step r records snap acc st)
      as [(e & st1 & -> & Hs) | (id & p & s & l & nb & st1 & st2 & Hs & _
                                 & A & ->)].
    + simpl. rewrite Hs. split; [exact HI | discriminate].
    + apply addBlock_ok in A as (_ & _ & _ & _ & _ & _ & ->).
      apply IH; simpl; rewrite Hs.
      * apply (I1_mono (save st)); simpl; auto using incl_refl.
        intros u. apply dict_in_set.
      * apply Forall_app. split.
        -- eapply Forall_impl; [| exact Hacc].
           intros b. apply dict_in_set.
        -- constructor; [| constructor].
           apply (dict_in_set_same N.eqb N.eqb_eq).
Qed.

Lemma import_connections_I1 {rt : Runtime} (entries : list string)
    (bl : list Block) :
  forall st : St,
    I1 (save st) = true ->
    Forall (fun b => dict_in N.eqb (uuid b) (blocks (save st)) = true) bl ->
    I1 (save (snd (import_connections entries bl st))) = true.
Proof.
  induction entries as [| c entries IH]; intros st HI Hbl; [exact HI |].
  cbn [import_connections].
  destruct (split "," c) as [| s [| t [| x fields]]]; try exact HI.
  unfold bind, lift.
  destruct (int_of s) as [i |]; [| exact HI].
  destruct (py_index bl i) as [b1 |] eqn:E1; [| exact HI].
  destruct (int_of t) as [j |]; [| exact HI].
  destruct (py_index bl j) as [b2 |] eqn:E2; [| exact HI].
  apply py_index_In in E1. apply py_index_In in E2.
  pose proof (proj1 (Forall_forall _ _) Hbl b1 E1) as H1.
  pose proof (proj1 (Forall_forall _ _) Hbl b2 E2) as H2.
  pose proof (run_call_I1 (AddConnection b1 b2) st HI) as HI'.
  simpl in HI'. rewrite H1, H2 in HI'. specialize (HI' eq_refl).
  apply IH; [exact HI' | exact Hbl].
Qed.

(** X22.  The body of [importSave] keeps I1, whether it returns or raises:
    it connects only blocks that it has itself added to the Save.  A Save
    that it builds from the empty one satisfies I1. *)
Theorem X22_import_body_keeps_I1 :
  forall (rt : Runtime) (text : string) (snap : bool) (st : St),
    I1 (save st) = true ->
    I1 (save (snd (importSave_body text snap st))) = true.
Proof.
  intros rt text snap st HI. unfold importSave_body.
  destruct (split "?" text) as [| bs [| cs [| bd [| sg [| x segs]]]]];
    try exact HI.
  unfold bind.
  destruct (import_blocks_I1 (split ";" bs) snap [] st HI (Forall_nil _))
    as [HI' Hbl].
  destruct (import_blocks (split ";" bs) snap [] st) as [[bl | e] st'];
    simpl in *; [| exact HI'].
  apply import_connections_I1; [exact HI' | now apply Hbl].
Qed.

Lemma X22_import_body_keeps_I1_witness :
  let st := snd (importSave_body (rt := sample_runtime)
                   "1,0,0,0,0,1;1,1,1,0,0,2+3?0,1;-1,0??" true st0) in
  I1 (save st0) = true
  /\ dict_keys (connections (save st)) = [(0%N, 1%N); (1%N, 0%N)]
  /\ I1 (save st) = true.
Proof.
  intros st. split; [reflexivity |]. split; [reflexivity |].
  apply (X22_import_body_keeps_I1 sample_runtime
           "1,0,0,0,0,1;1,1,1,0,0,2+3?0,1;-1,0??" true st0).
  reflexivity.
Defined.
